(** * video_processor.py: frame dispatch, mode flags and capture lifecycle

    A shallow embedding of [src/video_processor.py]: the [VideoProcessor]
    widget (capture handle, timer, mode flags, [process_frame]) and the
    [MainWindow] slots that drive it.  Python objects mutated through
    [self] become records passed in and returned; a raised exception is
    the [Raise] case of [result]; what Qt shows to the operator is a list
    of [UiEffect]s returned next to the new state. *)

From Stdlib Require Import ZArith QArith_base Lia.
From stdpp Require Import base list strings.

Local Open Scope Z_scope.

(** ** Exceptions *)

Inductive exn : Type :=
| cv2_error        (* cv2.error: an OpenCV assertion failed *)
| AttributeError.  (* method called on None *)

Inductive result (A : Type) : Type :=
| Ok (a : A)
| Raise (e : exn).

Arguments Ok {A} a.
Arguments Raise {A} e.

Definition rbind {A B : Type} (r : result A) (k : A -> result B) : result B :=
  match r with
  | Ok a => k a
  | Raise e => Raise e
  end.

Notation "x <-- r ;; k" := (rbind r (fun x => k))
  (at level 100, r at next level, right associativity).

(** ** Images *)

(** A pixel of a colour frame, in the device's channel order (B, G, R);
    every channel is a uint8 held in a [Z]. *)
Definition BGR : Type := (Z * Z * Z)%type.

(** A numpy image: height x width x 3, or height x width after a
    grey-scale conversion.  Rows are listed top to bottom. *)
Inductive ndarray : Type :=
| Mat3 (rows : list (list BGR))
| Mat1 (rows : list (list Z)).

(** A detection region (x, y, w, h). *)
Definition Rect : Type := (Z * Z * Z * Z)%type.

(** ** The part of OpenCV the program calls *)

Module cv2.

Inductive ColorConversionCode : Type :=
| COLOR_BGR2GRAY
| COLOR_GRAY2BGR
| COLOR_BGR2RGB.

Inductive ThresholdTypes : Type :=
| THRESH_BINARY.

(** The operators whose result is the library's own business: the
    luminance weights, the edge operator, the cascade detectors, the
    rasteriser of rectangle outlines, and the C int that the platform's
    conversion makes of a threshold too large for 32 bits. *)
Class Vision : Type := {
  luminance : BGR -> Z;
  Canny : ndarray -> Z -> Z -> result ndarray;
  detectMultiScale : string -> ndarray -> Q -> Z -> result (list Rect);
  rectangle : ndarray -> Z * Z -> Z * Z -> BGR -> Z -> ndarray;
  int_of_large : Z -> Z
}.

(** An element-wise operation on the 2-D grid of an image. *)
Definition map_pixels {A B : Type} (f : A -> B) (rows : list (list A))
  : list (list B) :=
  fmap (M := list) (fmap (M := list) f) rows.

(** [Mat::empty()]: no element at all. *)
Definition empty {A : Type} (rows : list (list A)) : bool :=
  match concat rows with
  | [] => true
  | _ :: _ => false
  end.

(** [cv2.cvtColor(src, code)].  An empty source and a source with the
    wrong number of channels for [code] fail OpenCV's assertions; for
    [COLOR_BGR2RGB] a single-channel source is taken as grey and expanded
    to three equal channels. *)
Definition cvtColor `{Vision} (src : ndarray) (code : ColorConversionCode)
  : result ndarray :=
  match code, src with
  | COLOR_BGR2GRAY, Mat3 rows =>
      if empty rows then Raise cv2_error
      else Ok (Mat1 (map_pixels luminance rows))
  | COLOR_GRAY2BGR, Mat1 rows =>
      if empty rows then Raise cv2_error
      else Ok (Mat3 (map_pixels (fun v : Z => (v, v, v)) rows))
  | COLOR_BGR2RGB, Mat3 rows =>
      if empty rows then Raise cv2_error
      else Ok (Mat3 (map_pixels (fun p : BGR =>
                                let '(b, g, r) := p in (r, g, b)) rows))
  | COLOR_BGR2RGB, Mat1 rows =>
      if empty rows then Raise cv2_error
      else Ok (Mat3 (map_pixels (fun v : Z => (v, v, v)) rows))
  | _, _ => Raise cv2_error
  end.

(** [cvFloor(thresh)], the threshold as the C int that uint8 data is
    compared with: the value itself when it fits 32 bits, and what the
    platform's conversion yields otherwise. *)
Definition cvFloor `{Vision} (value : Z) : Z :=
  if (-2147483648 <=? value) && (value <=? 2147483647)
  then value
  else int_of_large value.

(** One element of [cv2.threshold(.., thresh, maxval, THRESH_BINARY)] on
    uint8 data: [maxval] where the source is strictly above the int made
    of [thresh], 0 elsewhere. *)
Definition threshold_binary `{Vision} (thresh maxval v : Z) : Z :=
  if cvFloor thresh <? v then maxval else 0.

(** [cv2.threshold(src, thresh, maxval, type)]: the pair (thresh, dst);
    a multi-channel source is thresholded channel by channel. *)
Definition threshold `{Vision} (src : ndarray) (thresh maxval : Z) (type : ThresholdTypes)
  : result (Z * ndarray) :=
  match type with
  | THRESH_BINARY =>
      let f := threshold_binary thresh maxval in
      match src with
      | Mat1 rows => Ok (thresh, Mat1 (map_pixels f rows))
      | Mat3 rows =>
          Ok (thresh,
              Mat3 (map_pixels (fun p : BGR =>
                                 let '(b, g, r) := p in (f b, f g, f r)) rows))
      end
  end.

(** [cv2.VideoCapture]: the handle remembers whether it is open. *)
Record VideoCapture : Type := mkVideoCapture {
  camera_id : Z;
  isOpened : bool
}.

(** [cv2.VideoCapture(camera_id)]: never raises; [available] tells
    whether the device could be opened. *)
Definition open (id : Z) (available : bool) : VideoCapture :=
  {| camera_id := id; isOpened := available |}.

(** [cap.read()]: [(True, frame)] is [Some frame], [(False, None)] is
    [None].  [grab] is what the device delivers at this moment; a handle
    that is not open delivers nothing. *)
Definition read (cap : VideoCapture) (grab : option ndarray) : option ndarray :=
  if isOpened cap then grab else None.

(** [cap.release()]. *)
Definition release (cap : VideoCapture) : VideoCapture :=
  {| camera_id := camera_id cap; isOpened := false |}.

End cv2.

(** ** QTimer *)

Module QTimer.

Record t : Type := mk {
  isActive : bool;
  interval : Z
}.

(** [QTimer()]: a timer that is not running. *)
Definition new : t := {| isActive := false; interval := 0 |}.

Definition start (msec : Z) (_ : t) : t :=
  {| isActive := true; interval := msec |}.

Definition stop (tm : t) : t :=
  {| isActive := false; interval := interval tm |}.

End QTimer.

(** ** class VideoProcessor *)

Module VideoProcessor.

Record t : Type := mk {
  cap : option cv2.VideoCapture;          (* None until start_camera *)
  timer : QTimer.t;
  processing_enabled : bool;
  edge_detection_enabled : bool;
  gray_threshold_enabled : bool;
  face_detection_enabled : bool;
  eye_detection_enabled : bool;
  threshold : Z
}.

(** [VideoProcessor.__init__] *)
Definition __init__ : t :=
  {| cap := None;
     timer := QTimer.new;
     processing_enabled := false;
     edge_detection_enabled := false;
     gray_threshold_enabled := false;
     face_detection_enabled := false;
     eye_detection_enabled := false;
     threshold := 127 |}.

(** [start_camera(self, camera_id=0)]; [available] is whether the
    device opens. *)
Definition start_camera (self : t) (camera_id : Z) (available : bool) : t :=
  {| cap := Some (cv2.open camera_id available);
     timer := QTimer.start 30 (timer self);
     processing_enabled := false;
     edge_detection_enabled := edge_detection_enabled self;
     gray_threshold_enabled := gray_threshold_enabled self;
     face_detection_enabled := face_detection_enabled self;
     eye_detection_enabled := eye_detection_enabled self;
     threshold := threshold self |}.

(** [stop_camera(self)]: [if self.cap:] holds exactly when [cap] is not
    [None]. *)
Definition stop_camera (self : t) : t :=
  {| cap := match cap self with
            | Some c => Some (cv2.release c)
            | None => None
            end;
     timer := QTimer.stop (timer self);
     processing_enabled := processing_enabled self;
     edge_detection_enabled := edge_detection_enabled self;
     gray_threshold_enabled := gray_threshold_enabled self;
     face_detection_enabled := face_detection_enabled self;
     eye_detection_enabled := eye_detection_enabled self;
     threshold := threshold self |}.

Section WithVision.
Context `{V : cv2.Vision}.

(** [cv2.data.haarcascades + name] is kept as the file name. *)
Definition face_cascade : string := "haarcascade_frontalface_default.xml".
Definition eye_cascade : string := "haarcascade_eye.xml".

(** [for (x, y, w, h) in regions: cv2.rectangle(frame, (x, y),
    (x+w, y+h), color, 2)] *)
Definition draw_regions (color : BGR) (regions : list Rect) (frame : ndarray)
  : ndarray :=
  foldl (fun (fr : ndarray) (reg : Rect) =>
           let '(x, y, w, h) := reg in
           cv2.rectangle fr (x, y) (x + w, y + h) color 2)
        frame regions.

(** [process_frame(self, frame)] *)
Definition process_frame (self : t) (frame : ndarray) : result ndarray :=
  if edge_detection_enabled self then
    frame <-- cv2.cvtColor frame cv2.COLOR_BGR2GRAY ;;
    cv2.Canny frame 100 200
  else if gray_threshold_enabled self then
    gray_frame <-- cv2.cvtColor frame cv2.COLOR_BGR2GRAY ;;
    r <-- cv2.threshold gray_frame (threshold self) 255 cv2.THRESH_BINARY ;;
    let thresholded_frame := snd r in
    cv2.cvtColor thresholded_frame cv2.COLOR_GRAY2BGR
  else if face_detection_enabled self then
    gray_frame <-- cv2.cvtColor frame cv2.COLOR_BGR2GRAY ;;
    faces <-- cv2.detectMultiScale face_cascade gray_frame (11 # 10) 4 ;;
    Ok (draw_regions (255, 0, 0) faces frame)
  else if eye_detection_enabled self then
    gray_frame <-- cv2.cvtColor frame cv2.COLOR_BGR2GRAY ;;
    eyes <-- cv2.detectMultiScale eye_cascade gray_frame (11 # 10) 5 ;;
    Ok (draw_regions (0, 255, 0) eyes frame)
  else Ok frame.

(** [update_frame(self)], the slot of the timer.  [grab] is what the
    device delivers at this tick.  The result is [self] after the call
    and the frames emitted on [frame_update_signal]. *)
Definition update_frame (self : t) (grab : option ndarray)
  : result (t * list ndarray) :=
  match cap self with
  | None => Raise AttributeError
  | Some c =>
      match cv2.read c grab with
      | Some frame =>
          frame <-- (if processing_enabled self
                     then process_frame self frame
                     else Ok frame) ;;
          Ok (self, [frame])
      | None => Ok (self, [])
      end
  end.

End WithVision.

End VideoProcessor.

(** ** What the operator sees besides the label *)

Inductive UiEffect : Type :=
| MessageBox_warning (title text : string)
| FileDialog_getSaveFileName (caption : string)
| Pixmap_save (filename : string) (pixmap : ndarray).
  (* pixmap.save(filename) is called; the code drops its result *)

(** ** class MainWindow *)

Module MainWindow.

Record t : Type := mk {
  video_processor : VideoProcessor.t;
  label_pixmap : option ndarray     (* self.label.pixmap(); None until set *)
}.

Definition __init__ : t :=
  {| video_processor := VideoProcessor.__init__; label_pixmap := None |}.

Definition with_video_processor (self : t) (vp : VideoProcessor.t) : t :=
  {| video_processor := vp; label_pixmap := label_pixmap self |}.

Definition start_camera (self : t) (available : bool) : t :=
  with_video_processor self
    (VideoProcessor.start_camera (video_processor self) 0 available).

Definition stop_camera (self : t) : t :=
  with_video_processor self (VideoProcessor.stop_camera (video_processor self)).

(** [enable_edge_detection(self)]: edge detection on, the others off. *)
Definition enable_edge_detection (self : t) : t :=
  let vp := video_processor self in
  with_video_processor self
    {| VideoProcessor.cap := VideoProcessor.cap vp;
       VideoProcessor.timer := VideoProcessor.timer vp;
       VideoProcessor.processing_enabled := true;
       VideoProcessor.edge_detection_enabled := true;
       VideoProcessor.gray_threshold_enabled := false;
       VideoProcessor.face_detection_enabled := false;
       VideoProcessor.eye_detection_enabled := false;
       VideoProcessor.threshold := VideoProcessor.threshold vp |}.

(** [enable_gray_threshold(self)]: grey threshold on, the others off. *)
Definition enable_gray_threshold (self : t) : t :=
  let vp := video_processor self in
  with_video_processor self
    {| VideoProcessor.cap := VideoProcessor.cap vp;
       VideoProcessor.timer := VideoProcessor.timer vp;
       VideoProcessor.processing_enabled := true;
       VideoProcessor.edge_detection_enabled := false;
       VideoProcessor.gray_threshold_enabled := true;
       VideoProcessor.face_detection_enabled := false;
       VideoProcessor.eye_detection_enabled := false;
       VideoProcessor.threshold := VideoProcessor.threshold vp |}.

(** [enable_face_detection(self)]: face detection on, the others off. *)
Definition enable_face_detection (self : t) : t :=
  let vp := video_processor self in
  with_video_processor self
    {| VideoProcessor.cap := VideoProcessor.cap vp;
       VideoProcessor.timer := VideoProcessor.timer vp;
       VideoProcessor.processing_enabled := true;
       VideoProcessor.edge_detection_enabled := false;
       VideoProcessor.gray_threshold_enabled := false;
       VideoProcessor.face_detection_enabled := true;
       VideoProcessor.eye_detection_enabled := false;
       VideoProcessor.threshold := VideoProcessor.threshold vp |}.

(** [enable_eye_detection(self)]: eye detection on, the others off. *)
Definition enable_eye_detection (self : t) : t :=
  let vp := video_processor self in
  with_video_processor self
    {| VideoProcessor.cap := VideoProcessor.cap vp;
       VideoProcessor.timer := VideoProcessor.timer vp;
       VideoProcessor.processing_enabled := true;
       VideoProcessor.edge_detection_enabled := false;
       VideoProcessor.gray_threshold_enabled := false;
       VideoProcessor.face_detection_enabled := false;
       VideoProcessor.eye_detection_enabled := true;
       VideoProcessor.threshold := VideoProcessor.threshold vp |}.

(** [set_threshold(self, value)], the slot of the slider. *)
Definition set_threshold (self : t) (value : Z) : t :=
  let vp := video_processor self in
  with_video_processor self
    {| VideoProcessor.cap := VideoProcessor.cap vp;
       VideoProcessor.timer := VideoProcessor.timer vp;
       VideoProcessor.processing_enabled := VideoProcessor.processing_enabled vp;
       VideoProcessor.edge_detection_enabled := VideoProcessor.edge_detection_enabled vp;
       VideoProcessor.gray_threshold_enabled := VideoProcessor.gray_threshold_enabled vp;
       VideoProcessor.face_detection_enabled := VideoProcessor.face_detection_enabled vp;
       VideoProcessor.eye_detection_enabled := VideoProcessor.eye_detection_enabled vp;
       VideoProcessor.threshold := value |}.

(** [save_frame(self)]; [chosen] is the file name the dialog returns,
    empty when the operator cancels. *)
Definition save_frame (self : t) (chosen : string) : t * list UiEffect :=
  match label_pixmap self with
  | None => (self, [MessageBox_warning "Error" "No frame to save."])
  | Some pixmap =>
      if String.eqb chosen ""
      then (self, [FileDialog_getSaveFileName "Save Frame"])
      else (self, [FileDialog_getSaveFileName "Save Frame";
                   Pixmap_save chosen pixmap])
  end.

(** What the user and the timer can do to the window. *)
Inductive Event : Type :=
| start_button_clicked (available : bool)
| stop_button_clicked
| edge_detection_button_clicked
| gray_threshold_button_clicked
| face_detection_button_clicked
| eye_detection_button_clicked
| save_frame_button_clicked (chosen : string)
| threshold_slider_valueChanged (value : Z)
| timer_timeout (grab : option ndarray).

Section WithVision.
Context `{V : cv2.Vision}.

(** [update_label(self, frame)], the slot of [frame_update_signal]. *)
Definition update_label (self : t) (frame : ndarray) : result t :=
  frame <-- (if VideoProcessor.edge_detection_enabled (video_processor self)
             then cv2.cvtColor frame cv2.COLOR_GRAY2BGR
             else cv2.cvtColor frame cv2.COLOR_BGR2RGB) ;;
  Ok {| video_processor := video_processor self;
        label_pixmap := Some frame |}.

(** Delivery of the emitted frames to the connected slot, in order. *)
Fixpoint deliver (self : t) (frames : list ndarray) : result t :=
  match frames with
  | [] => Ok self
  | frame :: rest => self' <-- update_label self frame ;; deliver self' rest
  end.

(** The signal/slot wiring of [__init__]: each event runs its slot.  A
    timer that is not active sends no [timeout]. *)
Definition dispatch (self : t) (ev : Event) : result (t * list UiEffect) :=
  match ev with
  | start_button_clicked available => Ok (start_camera self available, [])
  | stop_button_clicked => Ok (stop_camera self, [])
  | edge_detection_button_clicked => Ok (enable_edge_detection self, [])
  | gray_threshold_button_clicked => Ok (enable_gray_threshold self, [])
  | face_detection_button_clicked => Ok (enable_face_detection self, [])
  | eye_detection_button_clicked => Ok (enable_eye_detection self, [])
  | save_frame_button_clicked chosen => Ok (save_frame self chosen)
  | threshold_slider_valueChanged value => Ok (set_threshold self value, [])
  | timer_timeout grab =>
      if QTimer.isActive (VideoProcessor.timer (video_processor self)) then
        r <-- VideoProcessor.update_frame (video_processor self) grab ;;
        self' <-- deliver (with_video_processor self (fst r)) (snd r) ;;
        Ok (self', [])
      else Ok (self, [])
  end.

(** A run of events from a state, collecting the effects; it stops at
    the first exception. *)
Fixpoint run (self : t) (evs : list Event) : result (t * list UiEffect) :=
  match evs with
  | [] => Ok (self, [])
  | ev :: rest =>
      r <-- dispatch self ev ;;
      r' <-- run (fst r) rest ;;
      Ok (fst r', snd r ++ snd r')
  end.

End WithVision.

End MainWindow.


(** ** The selectable modes, as the specification names them *)

Inductive Mode : Type :=
| EdgeDetection
| GrayThreshold
| FaceDetection
| EyeDetection.

#[global] Instance Mode_eq_dec : EqDecision Mode.
Proof. solve_decision. Defined.

(** The flag of [VideoProcessor] that stands for a mode. *)
Definition flag (m : Mode) (vp : VideoProcessor.t) : bool :=
  match m with
  | EdgeDetection => VideoProcessor.edge_detection_enabled vp
  | GrayThreshold => VideoProcessor.gray_threshold_enabled vp
  | FaceDetection => VideoProcessor.face_detection_enabled vp
  | EyeDetection => VideoProcessor.eye_detection_enabled vp
  end.

(** The slot behind the button of a mode. *)
Definition enable (m : Mode) (self : MainWindow.t) : MainWindow.t :=
  match m with
  | EdgeDetection => MainWindow.enable_edge_detection self
  | GrayThreshold => MainWindow.enable_gray_threshold self
  | FaceDetection => MainWindow.enable_face_detection self
  | EyeDetection => MainWindow.enable_eye_detection self
  end.

(** The priority order the specification reads off [process_frame]. *)
Definition priority : list Mode :=
  [EdgeDetection; GrayThreshold; FaceDetection; EyeDetection].

(** The first mode of [priority] whose flag is set. *)
Definition selected (vp : VideoProcessor.t) : option Mode :=
  find (fun m => flag m vp) priority.

(** The element at row [i], column [j] of an image grid. *)
Definition pixel_at {A : Type} (rows : list (list A)) (i j : nat) : option A :=
  match rows !! i with
  | Some row => row !! j
  | None => None
  end.

(** The pixel at row [i], column [j] of a frame; a grey value is read as
    three equal channels. *)
Definition frame_pixel (frame : ndarray) (i j : nat) : option BGR :=
  match frame with
  | Mat3 rows => pixel_at rows i j
  | Mat1 rows => (fun v : Z => (v, v, v)) <$> pixel_at rows i j
  end.

Section Filters.
Context `{V : cv2.Vision}.

(** One filter alone, as its branch of [process_frame] runs it. *)
Definition filter (m : Mode) (thresh : Z) (frame : ndarray) : result ndarray :=
  match m with
  | EdgeDetection =>
      gray <-- cv2.cvtColor frame cv2.COLOR_BGR2GRAY ;;
      cv2.Canny gray 100 200
  | GrayThreshold =>
      gray <-- cv2.cvtColor frame cv2.COLOR_BGR2GRAY ;;
      r <-- cv2.threshold gray thresh 255 cv2.THRESH_BINARY ;;
      cv2.cvtColor (snd r) cv2.COLOR_GRAY2BGR
  | FaceDetection =>
      gray <-- cv2.cvtColor frame cv2.COLOR_BGR2GRAY ;;
      faces <-- cv2.detectMultiScale VideoProcessor.face_cascade gray (11 # 10) 4 ;;
      Ok (VideoProcessor.draw_regions (255, 0, 0) faces frame)
  | EyeDetection =>
      gray <-- cv2.cvtColor frame cv2.COLOR_BGR2GRAY ;;
      eyes <-- cv2.detectMultiScale VideoProcessor.eye_cascade gray (11 # 10) 5 ;;
      Ok (VideoProcessor.draw_regions (0, 255, 0) eyes frame)
  end.

(** Position (row [i], column [j]) is outside what [cv2.rectangle] paints
    for each of [regions]: drawing any of them leaves that pixel alone. *)
Definition outside_outlines (color : BGR) (regions : list Rect) (i j : nat) : Prop :=
  forall (fr : ndarray) (x y w h : Z),
    (x, y, w, h) ∈ regions ->
    frame_pixel (cv2.rectangle fr (x, y) (x + w, y + h) color 2) i j
    = frame_pixel fr i j.

End Filters.

(** ** A concrete vision library to run the model on *)

Module Sample.

(** 0.114 B + 0.587 G + 0.299 R in 14-bit fixed point, rounded. *)
Definition luminance (p : BGR) : Z :=
  let '(b, g, r) := p in
  (b * 1868 + g * 9617 + r * 4899 + 8192) / 16384.

(** An edge operator that finds no edge. *)
Definition Canny (img : ndarray) (lo hi : Z) : result ndarray :=
  match img with
  | Mat1 rows => Ok (Mat1 (cv2.map_pixels (fun _ : Z => 0) rows))
  | Mat3 _ => Raise cv2_error
  end.

(** A detector that reports the top-left 1 x 1 box when the image has a
    pixel brighter than 200, and nothing otherwise. *)
Definition detectMultiScale (cascade : string) (img : ndarray)
    (scaleFactor : Q) (minNeighbors : Z) : result (list Rect) :=
  match img with
  | Mat1 rows =>
      Ok (if existsb (existsb (fun v : Z => 200 <? v)) rows
          then [(0, 0, 1, 1)] else [])
  | Mat3 _ => Raise cv2_error
  end.

Definition on_outline (pt1 pt2 : Z * Z) (i j : nat) : bool :=
  let '(x1, y1) := pt1 in
  let '(x2, y2) := pt2 in
  let x := Z.of_nat j in
  let y := Z.of_nat i in
  ((x1 <=? x) && (x <=? x2) && ((y =? y1) || (y =? y2)))
  || ((y1 <=? y) && (y <=? y2) && ((x =? x1) || (x =? x2))).

(** A one-pixel outline painter. *)
Definition rectangle (img : ndarray) (pt1 pt2 : Z * Z) (color : BGR)
    (thickness : Z) : ndarray :=
  match img with
  | Mat3 rows =>
      Mat3 (imap (fun i row =>
                    imap (fun j (p : BGR) =>
                            if on_outline pt1 pt2 i j then color else p) row)
                 rows)
  | Mat1 rows => Mat1 rows
  end.

Definition vision : cv2.Vision :=
  {| cv2.luminance := luminance;
     cv2.Canny := Canny;
     cv2.detectMultiScale := detectMultiScale;
     cv2.rectangle := rectangle;
     cv2.int_of_large := fun _ : Z => -2147483648 |}.

(** A 2 x 2 mid-grey colour frame. *)
Definition grey_frame : ndarray :=
  Mat3 [[(100, 100, 100); (100, 100, 100)]; [(100, 100, 100); (100, 100, 100)]].

(** A window after "Start Camera" on a device that opens. *)
Definition started : MainWindow.t := MainWindow.start_camera MainWindow.__init__ true.

End Sample.

(** ** Shapes of runs *)

(** A click on "Start Camera". *)
Definition is_start (ev : MainWindow.Event) : bool :=
  match ev with
  | MainWindow.start_button_clicked _ => true
  | _ => false
  end.

(** A tick at which the device would deliver a frame. *)
Definition carries_frame (ev : MainWindow.Event) : bool :=
  match ev with
  | MainWindow.timer_timeout (Some _) => true
  | _ => false
  end.

(** A run of ticks, one per element of [grabs]. *)
Definition ticks (grabs : list (option ndarray)) : list MainWindow.Event :=
  MainWindow.timer_timeout <$> grabs.

(** A save of a pixmap to a file. *)
Definition is_save (e : UiEffect) : bool :=
  match e with
  | Pixmap_save _ _ => true
  | _ => false
  end.

(** ** Two sentences of the specification, as written *)

Section AsWritten.
Context `{V : cv2.Vision}.

(** "Pixels >= Threshold map to the maximum intensity and pixels <
    Threshold map to zero", for the frame [Mat3 rows] processed in state
    [vp]. *)
Definition threshold_at_or_above (vp : VideoProcessor.t) (rows : list (list BGR))
  : Prop :=
  exists out : list (list BGR),
    VideoProcessor.process_frame vp (Mat3 rows) = Ok (Mat3 out) /\
    forall (i j : nat) (p : BGR),
      pixel_at rows i j = Some p ->
      pixel_at out i j
      = Some (if VideoProcessor.threshold vp <=? cv2.luminance p
              then (255, 255, 255) else (0, 0, 0)).

(** "Capture device failed to open: surfaced to the operator; processing
    cannot start", for a click on "Start Camera" in state [self]. *)
Definition open_failure_surfaced (self : MainWindow.t) : Prop :=
  exists (self' : MainWindow.t) (effects : list UiEffect),
    MainWindow.dispatch self (MainWindow.start_button_clicked false)
    = Ok (self', effects) /\
    effects <> [] /\
    QTimer.isActive (VideoProcessor.timer (MainWindow.video_processor self'))
    = false.

End AsWritten.

(** ** Shapes of frames and events *)

(** A three-channel image. *)
Definition is_colour (frame : ndarray) : bool :=
  match frame with
  | Mat3 _ => true
  | Mat1 _ => false
  end.

(** An image with no element. *)
Definition frame_empty (frame : ndarray) : bool :=
  match frame with
  | Mat3 rows => cv2.empty rows
  | Mat1 rows => cv2.empty rows
  end.

(** A click on "Save Frame". *)
Definition is_save_click (ev : MainWindow.Event) : bool :=
  match ev with
  | MainWindow.save_frame_button_clicked _ => true
  | _ => false
  end.

(** A click on "Start Camera" or "Stop Camera". *)
Definition is_start_or_stop (ev : MainWindow.Event) : bool :=
  match ev with
  | MainWindow.start_button_clicked _ => true
  | MainWindow.stop_button_clicked => true
  | _ => false
  end.

(** Every move of the slider stays in the range set by
    [setRange(0, 255)]. *)
Definition slider_in_range (ev : MainWindow.Event) : bool :=
  match ev with
  | MainWindow.threshold_slider_valueChanged value =>
      (0 <=? value) && (value <=? 255)
  | _ => true
  end.

(** The window [self] with [pixmap] on its label. *)
Definition showing (self : MainWindow.t) (pixmap : ndarray) : MainWindow.t :=
  {| MainWindow.video_processor := MainWindow.video_processor self;
     MainWindow.label_pixmap := Some pixmap |}.

(** The channel order of the display: (B, G, R) read as (R, G, B). *)
Definition to_rgb (p : BGR) : BGR :=
  let '(b, g, r) := p in (r, g, b).

(** ** Sanity runs of the model *)

Example sample_gray_threshold_200 :
  VideoProcessor.process_frame (V := Sample.vision)
    (MainWindow.video_processor (MainWindow.enable_gray_threshold Sample.started))
    (Mat3 [[(200, 200, 200); (200, 200, 200)]])
  = Ok (Mat3 [[(255, 255, 255); (255, 255, 255)]]).
Proof. reflexivity. Qed.

Example sample_tick_displays :
  MainWindow.dispatch (V := Sample.vision) Sample.started
    (MainWindow.timer_timeout (Some (Mat3 [[(1, 2, 3)]])))
  = Ok ({| MainWindow.video_processor := MainWindow.video_processor Sample.started;
           MainWindow.label_pixmap := Some (Mat3 [[(3, 2, 1)]]) |}, []).
Proof. reflexivity. Qed.

(** * Properties *)

(** ** Image grids *)

Lemma pixel_at_map_pixels {A B : Type} (f : A -> B) (rows : list (list A)) (i j : nat) :
  pixel_at (cv2.map_pixels f rows) i j = f <$> pixel_at rows i j.
Proof.
  unfold pixel_at, cv2.map_pixels.
  rewrite list_lookup_fmap.
  destruct (rows !! i) as [row|]; simpl; [|reflexivity].
  apply list_lookup_fmap.
Qed.

Lemma empty_map_pixels {A B : Type} (f : A -> B) (rows : list (list A)) :
  cv2.empty (cv2.map_pixels f rows) = cv2.empty rows.
Proof.
  unfold cv2.empty, cv2.map_pixels.
  induction rows as [|row rows IH]; [reflexivity|].
  destruct row as [|a row]; simpl; [exact IH | reflexivity].
Qed.

Lemma map_pixels_compose {A B C : Type} (f : A -> B) (g : B -> C)
    (rows : list (list A)) :
  cv2.map_pixels g (cv2.map_pixels f rows) = cv2.map_pixels (g ∘ f) rows.
Proof.
  unfold cv2.map_pixels.
  induction rows as [|row rows IH]; [reflexivity|].
  cbn [fmap list_fmap]. f_equal; [|exact IH].
  symmetry. apply (list_fmap_compose f g).
Qed.

(** The grey-threshold branch computes one value per pixel. *)
Lemma process_frame_gray_threshold `{V : cv2.Vision}
    (self : VideoProcessor.t) (rows : list (list BGR)) :
  VideoProcessor.edge_detection_enabled self = false ->
  VideoProcessor.gray_threshold_enabled self = true ->
  cv2.empty rows = false ->
  VideoProcessor.process_frame self (Mat3 rows)
  = Ok (Mat3 (cv2.map_pixels
                (fun p : BGR =>
                   let v := cv2.threshold_binary (VideoProcessor.threshold self) 255
                              (cv2.luminance p) in
                   (v, v, v))
                rows)).
Proof.
  intros Hedge Hgray Hne.
  unfold VideoProcessor.process_frame. rewrite Hedge, Hgray.
  unfold cv2.cvtColor at 1. rewrite Hne. simpl.
  rewrite !empty_map_pixels, Hne.
  rewrite !map_pixels_compose. reflexivity.
Qed.

(** ** C1: grey threshold *)

Lemma cvFloor_in_range `{V : cv2.Vision} (value : Z) :
  -2147483648 <= value <= 2147483647 -> cv2.cvFloor value = value.
Proof.
  intros [Hlo Hhi]. unfold cv2.cvFloor.
  destruct (Z.leb_spec (-2147483648) value); [|lia].
  destruct (Z.leb_spec value 2147483647); [reflexivity | lia].
Qed.

(** The comparison of the grey threshold, for a threshold of the slider. *)
Lemma threshold_binary_slider `{V : cv2.Vision} (T v : Z) :
  0 <= T <= 255 ->
  cv2.threshold_binary T 255 v = if T <? v then 255 else 0.
Proof.
  intros HT. unfold cv2.threshold_binary.
  rewrite cvFloor_in_range by lia. reflexivity.
Qed.

(** C1, as amended.  With edge detection off and the grey threshold on,
    for every threshold T in 0..255, [process_frame] turns every non-empty
    colour frame into a colour frame of the same shape in which a pixel
    whose luminance is strictly above T is (255, 255, 255) and a pixel
    whose luminance is at or below T is (0, 0, 0).  So a frame of luminance
    0 everywhere comes out all zero, and a frame of luminance 255
    everywhere comes out all 255 when T < 255. *)
Theorem gray_threshold_strictly_above `{V : cv2.Vision}
    (self : VideoProcessor.t) (rows : list (list BGR)) :
  VideoProcessor.edge_detection_enabled self = false ->
  VideoProcessor.gray_threshold_enabled self = true ->
  cv2.empty rows = false ->
  0 <= VideoProcessor.threshold self <= 255 ->
  let T := VideoProcessor.threshold self in
  exists out : list (list BGR),
    VideoProcessor.process_frame self (Mat3 rows) = Ok (Mat3 out) /\
    (forall i j : nat, is_Some (pixel_at out i j) <-> is_Some (pixel_at rows i j)) /\
    (forall (i j : nat) (p : BGR),
        pixel_at rows i j = Some p -> T < cv2.luminance p ->
        pixel_at out i j = Some (255, 255, 255)) /\
    (forall (i j : nat) (p : BGR),
        pixel_at rows i j = Some p -> cv2.luminance p <= T ->
        pixel_at out i j = Some (0, 0, 0)) /\
    ((forall (i j : nat) (p : BGR), pixel_at rows i j = Some p -> cv2.luminance p = 0) ->
     forall (i j : nat) (p : BGR),
       pixel_at rows i j = Some p -> pixel_at out i j = Some (0, 0, 0)) /\
    (T < 255 ->
     (forall (i j : nat) (p : BGR), pixel_at rows i j = Some p -> cv2.luminance p = 255) ->
     forall (i j : nat) (p : BGR),
       pixel_at rows i j = Some p -> pixel_at out i j = Some (255, 255, 255)).
Proof.
  intros Hedge Hgray Hne Hrange T.
  eexists. split; [apply process_frame_gray_threshold; assumption|].
  assert (Habove : forall (i j : nat) (p : BGR),
             pixel_at rows i j = Some p -> T < cv2.luminance p ->
             pixel_at (cv2.map_pixels
                         (fun p : BGR =>
                            let v := cv2.threshold_binary T 255 (cv2.luminance p) in
                            (v, v, v)) rows) i j = Some (255, 255, 255)).
  { intros i j p Hp Hlt. rewrite pixel_at_map_pixels, Hp. simpl.
    rewrite (threshold_binary_slider T _ Hrange).
    destruct (Z.ltb_spec T (cv2.luminance p)); [reflexivity | lia]. }
  assert (Hbelow : forall (i j : nat) (p : BGR),
             pixel_at rows i j = Some p -> cv2.luminance p <= T ->
             pixel_at (cv2.map_pixels
                         (fun p : BGR =>
                            let v := cv2.threshold_binary T 255 (cv2.luminance p) in
                            (v, v, v)) rows) i j = Some (0, 0, 0)).
  { intros i j p Hp Hle. rewrite pixel_at_map_pixels, Hp. simpl.
    rewrite (threshold_binary_slider T _ Hrange).
    destruct (Z.ltb_spec T (cv2.luminance p)); [lia | reflexivity]. }
  repeat split.
  - rewrite pixel_at_map_pixels. apply fmap_is_Some.
  - rewrite pixel_at_map_pixels. intros H. apply fmap_is_Some. exact H.
  - exact Habove.
  - exact Hbelow.
  - intros Hall i j p Hp. apply (Hbelow i j p Hp).
    rewrite (Hall i j p Hp). apply Hrange.
  - intros HT Hall i j p Hp. apply (Habove i j p Hp).
    rewrite (Hall i j p Hp). exact HT.
Qed.

(** The 4 x 4 scenario of the specification, cut to 2 x 2: all pixels
    (200, 200, 200), threshold 127. *)
Lemma gray_threshold_strictly_above_witness :
  let self := MainWindow.video_processor
                (MainWindow.enable_gray_threshold Sample.started) in
  let rows := [[(200, 200, 200); (200, 200, 200)];
               [(200, 200, 200); (200, 200, 200)]] in
  exists out : list (list BGR),
    VideoProcessor.process_frame (V := Sample.vision) self (Mat3 rows)
    = Ok (Mat3 out) /\
    (forall i j : nat, is_Some (pixel_at out i j) <-> is_Some (pixel_at rows i j)) /\
    (forall (i j : nat) (p : BGR),
        pixel_at rows i j = Some p -> 127 < Sample.luminance p ->
        pixel_at out i j = Some (255, 255, 255)) /\
    (forall (i j : nat) (p : BGR),
        pixel_at rows i j = Some p -> Sample.luminance p <= 127 ->
        pixel_at out i j = Some (0, 0, 0)) /\
    ((forall (i j : nat) (p : BGR), pixel_at rows i j = Some p -> Sample.luminance p = 0) ->
     forall (i j : nat) (p : BGR),
       pixel_at rows i j = Some p -> pixel_at out i j = Some (0, 0, 0)) /\
    (127 < 255 ->
     (forall (i j : nat) (p : BGR), pixel_at rows i j = Some p -> Sample.luminance p = 255) ->
     forall (i j : nat) (p : BGR),
       pixel_at rows i j = Some p -> pixel_at out i j = Some (255, 255, 255)).
Proof.
  intros self rows.
  apply (gray_threshold_strictly_above (V := Sample.vision) self rows);
    [reflexivity | reflexivity | reflexivity | simpl; lia].
Defined.

(** C1, as written, fails where the luminance equals the threshold: a
    white pixel (luminance 255) at threshold 255 comes out black. *)
Lemma gray_threshold_at_threshold_is_zero :
  let self := MainWindow.video_processor
                (MainWindow.set_threshold
                   (MainWindow.enable_gray_threshold Sample.started) 255) in
  Sample.luminance (255, 255, 255) = 255 /\
  VideoProcessor.process_frame (V := Sample.vision) self (Mat3 [[(255, 255, 255)]])
  = Ok (Mat3 [[(0, 0, 0)]]) /\
  ~ threshold_at_or_above (V := Sample.vision) self [[(255, 255, 255)]].
Proof.
  split; [reflexivity|]. split; [reflexivity|].
  intros (out & Hout & Hpix).
  specialize (Hpix 0%nat 0%nat (255, 255, 255) eq_refl).
  vm_compute in Hout. injection Hout as <-.
  vm_compute in Hpix. discriminate Hpix.
Qed.

(** ** C2: no mode selected *)

(** C2.  With none of the four mode flags set, [process_frame] returns the
    frame it was given, and a tick on an open device that delivers [frame]
    emits exactly [frame] and leaves the processor as it was. *)
Theorem mode_none_identity `{V : cv2.Vision}
    (self : VideoProcessor.t) (frame : ndarray) :
  VideoProcessor.edge_detection_enabled self = false ->
  VideoProcessor.gray_threshold_enabled self = false ->
  VideoProcessor.face_detection_enabled self = false ->
  VideoProcessor.eye_detection_enabled self = false ->
  VideoProcessor.process_frame self frame = Ok frame /\
  forall c : cv2.VideoCapture,
    VideoProcessor.cap self = Some c -> cv2.isOpened c = true ->
    VideoProcessor.update_frame self (Some frame) = Ok (self, [frame]).
Proof.
  intros Hedge Hgray Hface Heye.
  assert (Hid : VideoProcessor.process_frame self frame = Ok frame).
  { unfold VideoProcessor.process_frame.
    rewrite Hedge, Hgray, Hface, Heye. reflexivity. }
  split; [exact Hid|].
  intros c Hcap Hopen.
  unfold VideoProcessor.update_frame, cv2.read.
  rewrite Hcap, Hopen, Hid.
  destruct (VideoProcessor.processing_enabled self); reflexivity.
Qed.

Lemma mode_none_identity_witness :
  VideoProcessor.process_frame (V := Sample.vision)
    (MainWindow.video_processor Sample.started) Sample.grey_frame
  = Ok Sample.grey_frame /\
  forall c : cv2.VideoCapture,
    VideoProcessor.cap (MainWindow.video_processor Sample.started) = Some c ->
    cv2.isOpened c = true ->
    VideoProcessor.update_frame (V := Sample.vision)
      (MainWindow.video_processor Sample.started) (Some Sample.grey_frame)
    = Ok (MainWindow.video_processor Sample.started, [Sample.grey_frame]).
Proof.
  apply (mode_none_identity (V := Sample.vision)
           (MainWindow.video_processor Sample.started) Sample.grey_frame);
    reflexivity.
Defined.

(** ** C3: the mode buttons *)

(** C3.  From any state, after the slot of mode [A] and then the slot of
    mode [B], the flag of a mode [M] is set exactly when [M] is [B], and
    processing is switched on.  ([A] and [B] need not differ.) *)
Theorem enabling_is_exclusive (self : MainWindow.t) (A B M : Mode) :
  flag M (MainWindow.video_processor (enable B (enable A self)))
  = bool_decide (M = B) /\
  VideoProcessor.processing_enabled
    (MainWindow.video_processor (enable B (enable A self))) = true.
Proof.
  split; [|destruct A, B; reflexivity].
  destruct A, B, M; reflexivity.
Qed.

(** ** C9: one filter per frame, by priority *)

Lemma selected_cases (vp : VideoProcessor.t) :
  selected vp
  = if VideoProcessor.edge_detection_enabled vp then Some EdgeDetection
    else if VideoProcessor.gray_threshold_enabled vp then Some GrayThreshold
    else if VideoProcessor.face_detection_enabled vp then Some FaceDetection
    else if VideoProcessor.eye_detection_enabled vp then Some EyeDetection
    else None.
Proof.
  unfold selected, priority. simpl.
  destruct (VideoProcessor.edge_detection_enabled vp),
    (VideoProcessor.gray_threshold_enabled vp),
    (VideoProcessor.face_detection_enabled vp),
    (VideoProcessor.eye_detection_enabled vp); reflexivity.
Qed.

(** C9.  Whatever the four flags are, [process_frame] runs the filter of
    the first mode in the order edge detection, grey threshold, face
    detection, eye detection whose flag is set, and nothing else; with no
    flag set it returns the frame. *)
Theorem process_frame_priority `{V : cv2.Vision}
    (self : VideoProcessor.t) (frame : ndarray) :
  VideoProcessor.process_frame self frame
  = match selected self with
    | Some m => filter m (VideoProcessor.threshold self) frame
    | None => Ok frame
    end.
Proof.
  rewrite selected_cases. unfold VideoProcessor.process_frame.
  destruct (VideoProcessor.edge_detection_enabled self); [reflexivity|].
  destruct (VideoProcessor.gray_threshold_enabled self); [reflexivity|].
  destruct (VideoProcessor.face_detection_enabled self); [reflexivity|].
  destruct (VideoProcessor.eye_detection_enabled self); reflexivity.
Qed.

(** ** C4: detection overlays *)

Lemma draw_regions_outside `{V : cv2.Vision}
    (color : BGR) (regions : list Rect) (frame : ndarray) (i j : nat) :
  outside_outlines color regions i j ->
  frame_pixel (VideoProcessor.draw_regions color regions frame) i j
  = frame_pixel frame i j.
Proof.
  unfold VideoProcessor.draw_regions.
  revert frame.
  induction regions as [|[[[x y] w] h] regions IH]; intros frame Hout.
  - reflexivity.
  - cbn [foldl]. rewrite IH.
    + apply Hout. apply list_elem_of_here.
    + intros fr x' y' w' h' Hin. apply Hout.
      apply list_elem_of_further. exact Hin.
Qed.

(** C4.  With edge detection and the grey threshold off, on a frame whose
    grey conversion succeeds: if face detection is on and the face detector
    returns no region, [process_frame] returns the frame as it was; the
    same for eye detection (when face detection is off) and the eye
    detector.  Whatever regions are returned, the frame comes back with
    every pixel outside the painted outlines unaltered. *)
Theorem detection_leaves_frame `{V : cv2.Vision}
    (self : VideoProcessor.t) (frame gray : ndarray) :
  VideoProcessor.edge_detection_enabled self = false ->
  VideoProcessor.gray_threshold_enabled self = false ->
  cv2.cvtColor frame cv2.COLOR_BGR2GRAY = Ok gray ->
  (VideoProcessor.face_detection_enabled self = true ->
   cv2.detectMultiScale VideoProcessor.face_cascade gray (11 # 10) 4 = Ok [] ->
   VideoProcessor.process_frame self frame = Ok frame) /\
  (VideoProcessor.face_detection_enabled self = false ->
   VideoProcessor.eye_detection_enabled self = true ->
   cv2.detectMultiScale VideoProcessor.eye_cascade gray (11 # 10) 5 = Ok [] ->
   VideoProcessor.process_frame self frame = Ok frame) /\
  (VideoProcessor.face_detection_enabled self = true ->
   forall faces : list Rect,
     cv2.detectMultiScale VideoProcessor.face_cascade gray (11 # 10) 4 = Ok faces ->
     exists out : ndarray,
       VideoProcessor.process_frame self frame = Ok out /\
       forall i j : nat,
         outside_outlines (255, 0, 0) faces i j ->
         frame_pixel out i j = frame_pixel frame i j) /\
  (VideoProcessor.face_detection_enabled self = false ->
   VideoProcessor.eye_detection_enabled self = true ->
   forall eyes : list Rect,
     cv2.detectMultiScale VideoProcessor.eye_cascade gray (11 # 10) 5 = Ok eyes ->
     exists out : ndarray,
       VideoProcessor.process_frame self frame = Ok out /\
       forall i j : nat,
         outside_outlines (0, 255, 0) eyes i j ->
         frame_pixel out i j = frame_pixel frame i j).
Proof.
  intros Hedge Hgray Hcvt.
  unfold VideoProcessor.process_frame. rewrite Hedge, Hgray, Hcvt.
  repeat split.
  - intros -> Hdet. simpl. rewrite Hdet. reflexivity.
  - intros -> -> Hdet. simpl. rewrite Hdet. reflexivity.
  - intros -> faces Hdet. simpl. rewrite Hdet. simpl.
    eexists. split; [reflexivity|].
    intros i j Hout. apply draw_regions_outside. exact Hout.
  - intros -> -> eyes Hdet. simpl. rewrite Hdet. simpl.
    eexists. split; [reflexivity|].
    intros i j Hout. apply draw_regions_outside. exact Hout.
Qed.

(** Face detection on a mid-grey frame, where the sample detector finds
    nothing. *)
Lemma detection_leaves_frame_witness :
  VideoProcessor.process_frame (V := Sample.vision)
    (MainWindow.video_processor (MainWindow.enable_face_detection Sample.started))
    Sample.grey_frame
  = Ok Sample.grey_frame.
Proof.
  apply (proj1 (detection_leaves_frame (V := Sample.vision)
                  (MainWindow.video_processor
                     (MainWindow.enable_face_detection Sample.started))
                  Sample.grey_frame
                  (Mat1 [[100; 100]; [100; 100]])
                  eq_refl eq_refl eq_refl));
    reflexivity.
Defined.

(** ** Runs of the window *)

Lemma with_own_video_processor (self : MainWindow.t) :
  MainWindow.with_video_processor self (MainWindow.video_processor self) = self.
Proof. destruct self; reflexivity. Qed.

(** A state that a tick leaves alone stays put under any run of ticks. *)
Lemma run_idle_ticks `{V : cv2.Vision} (self : MainWindow.t) :
  (forall grab : option ndarray,
      MainWindow.dispatch self (MainWindow.timer_timeout grab) = Ok (self, [])) ->
  forall grabs : list (option ndarray),
    MainWindow.run self (ticks grabs) = Ok (self, []).
Proof.
  intros Hidle grabs. unfold ticks.
  induction grabs as [|grab grabs IH]; [reflexivity|].
  cbn [fmap list_fmap MainWindow.run].
  rewrite Hidle. cbn [rbind fst snd].
  unfold ticks in IH. change (list_fmap _ _ ?f ?l) with (f <$> l).
  rewrite IH. reflexivity.
Qed.

(** A stopped timer delivers nothing. *)
Lemma inactive_timer_tick `{V : cv2.Vision}
    (self : MainWindow.t) (grab : option ndarray) :
  QTimer.isActive (VideoProcessor.timer (MainWindow.video_processor self)) = false ->
  MainWindow.dispatch self (MainWindow.timer_timeout grab) = Ok (self, []).
Proof. intros H. unfold MainWindow.dispatch. rewrite H. reflexivity. Qed.

(** A handle that is not open delivers nothing. *)
Lemma closed_handle_tick `{V : cv2.Vision}
    (self : MainWindow.t) (c : cv2.VideoCapture) (grab : option ndarray) :
  VideoProcessor.cap (MainWindow.video_processor self) = Some c ->
  cv2.read c grab = None ->
  MainWindow.dispatch self (MainWindow.timer_timeout grab) = Ok (self, []).
Proof.
  intros Hcap Hread. unfold MainWindow.dispatch, VideoProcessor.update_frame.
  rewrite Hcap, Hread.
  destruct (QTimer.isActive _); [|reflexivity].
  cbn [rbind fst snd MainWindow.deliver].
  rewrite with_own_video_processor. reflexivity.
Qed.

(** Before the first "Start Camera" there is no handle and the timer is
    idle, and no event raises. *)
Lemma run_before_start `{V : cv2.Vision}
    (evs : list MainWindow.Event) (self : MainWindow.t) :
  VideoProcessor.cap (MainWindow.video_processor self) = None ->
  QTimer.isActive (VideoProcessor.timer (MainWindow.video_processor self)) = false ->
  forallb (fun ev => negb (is_start ev)) evs = true ->
  exists (self' : MainWindow.t) (effects : list UiEffect),
    MainWindow.run self evs = Ok (self', effects) /\
    VideoProcessor.cap (MainWindow.video_processor self') = None /\
    QTimer.isActive (VideoProcessor.timer (MainWindow.video_processor self')) = false.
Proof.
  revert self.
  induction evs as [|ev evs IH]; intros self Hcap Htimer Hevs.
  - exists self, []. auto.
  - cbn [forallb] in Hevs. apply andb_prop in Hevs as [Hev Hevs].
    assert (Hstep : exists (s : MainWindow.t) (e : list UiEffect),
               MainWindow.dispatch self ev = Ok (s, e) /\
               VideoProcessor.cap (MainWindow.video_processor s) = None /\
               QTimer.isActive
                 (VideoProcessor.timer (MainWindow.video_processor s)) = false).
    { destruct ev; try discriminate Hev; cbn [MainWindow.dispatch].
      - eexists _, _. split; [reflexivity|]. simpl. rewrite Hcap. auto.
      - eexists _, _. split; [reflexivity|]. auto.
      - eexists _, _. split; [reflexivity|]. auto.
      - eexists _, _. split; [reflexivity|]. auto.
      - eexists _, _. split; [reflexivity|]. auto.
      - exists self, (snd (MainWindow.save_frame self chosen)).
        split; [|auto]. unfold MainWindow.save_frame.
        destruct (MainWindow.label_pixmap self); [|reflexivity].
        destruct (String.eqb chosen ""); reflexivity.
      - eexists _, _. split; [reflexivity|]. auto.
      - rewrite Htimer. eexists _, _. split; [reflexivity|]. auto. }
    destruct Hstep as (s & e & Hdisp & Hcap' & Htimer').
    destruct (IH s Hcap' Htimer' Hevs) as (s' & e' & Hrun & Hc & Ht).
    exists s', (e ++ e').
    cbn [MainWindow.run]. rewrite Hdisp. cbn [rbind fst snd].
    rewrite Hrun. auto.
Qed.

(** ** C5: stopping capture *)

Lemma stop_camera_twice (vp : VideoProcessor.t) :
  VideoProcessor.stop_camera (VideoProcessor.stop_camera vp)
  = VideoProcessor.stop_camera vp.
Proof.
  unfold VideoProcessor.stop_camera. simpl.
  destruct (VideoProcessor.cap vp); reflexivity.
Qed.

Lemma stop_camera_never_started (vp : VideoProcessor.t) :
  VideoProcessor.cap vp = None ->
  QTimer.isActive (VideoProcessor.timer vp) = false ->
  VideoProcessor.stop_camera vp = vp.
Proof.
  destruct vp as [cap [active interval] pe ed gt fd eyd th]. simpl.
  intros -> ->. reflexivity.
Qed.

(** C5.  [stop_camera] returns a state and never raises.  In a window on
    which "Start Camera" was never clicked it changes nothing; two stops
    in a row leave the state of one stop; after a stop no tick delivers a
    frame: the stopped timer sends none, and the released handle would
    yield none either, so the window stays as the stop left it. *)
Theorem stop_camera_idempotent `{V : cv2.Vision} (self : MainWindow.t) :
  (forall (evs : list MainWindow.Event) (s : MainWindow.t) (effects : list UiEffect),
      forallb (fun ev => negb (is_start ev)) evs = true ->
      MainWindow.run MainWindow.__init__ evs = Ok (s, effects) ->
      MainWindow.dispatch s MainWindow.stop_button_clicked = Ok (s, [])) /\
  MainWindow.stop_camera (MainWindow.stop_camera self) = MainWindow.stop_camera self /\
  MainWindow.run self [MainWindow.stop_button_clicked; MainWindow.stop_button_clicked]
  = MainWindow.run self [MainWindow.stop_button_clicked] /\
  (forall grabs : list (option ndarray),
      MainWindow.run (MainWindow.stop_camera self) (ticks grabs)
      = Ok (MainWindow.stop_camera self, [])) /\
  (forall grab : option ndarray,
      VideoProcessor.cap (MainWindow.video_processor self) <> None ->
      VideoProcessor.update_frame
        (MainWindow.video_processor (MainWindow.stop_camera self)) grab
      = Ok (MainWindow.video_processor (MainWindow.stop_camera self), [])).
Proof.
  assert (Htwice : MainWindow.stop_camera (MainWindow.stop_camera self)
                   = MainWindow.stop_camera self).
  { unfold MainWindow.stop_camera, MainWindow.with_video_processor. simpl.
    rewrite stop_camera_twice. reflexivity. }
  split; [|split; [exact Htwice|split; [|split]]].
  - intros evs s effects Hevs Hrun.
    destruct (run_before_start evs MainWindow.__init__ eq_refl eq_refl Hevs)
      as (s' & e' & Hrun' & Hcap & Htimer).
    rewrite Hrun in Hrun'. injection Hrun' as <- <-.
    cbn [MainWindow.dispatch]. unfold MainWindow.stop_camera.
    rewrite (stop_camera_never_started _ Hcap Htimer).
    rewrite with_own_video_processor. reflexivity.
  - cbn [MainWindow.run MainWindow.dispatch rbind fst snd app].
    rewrite Htwice. reflexivity.
  - apply run_idle_ticks. intros grab.
    apply inactive_timer_tick. reflexivity.
  - intros grab Hcap.
    unfold VideoProcessor.update_frame, MainWindow.stop_camera. simpl.
    destruct (VideoProcessor.cap (MainWindow.video_processor self)) as [c|];
      [reflexivity | contradiction].
Qed.

Lemma stop_camera_idempotent_witness :
  MainWindow.dispatch (V := Sample.vision)
    (MainWindow.enable_gray_threshold MainWindow.__init__)
    MainWindow.stop_button_clicked
  = Ok (MainWindow.enable_gray_threshold MainWindow.__init__, []).
Proof.
  apply (proj1 (stop_camera_idempotent (V := Sample.vision) MainWindow.__init__)
           [MainWindow.gray_threshold_button_clicked]
           (MainWindow.enable_gray_threshold MainWindow.__init__) []);
    reflexivity.
Defined.

(** ** C6: a tick without a frame *)

(** C6.  When the handle's read yields no frame, [update_frame] emits
    nothing, raises nothing and returns the processor unchanged; the tick
    leaves the whole window (timer included) as it was, with no effect
    shown, so the next tick runs exactly as if this one had not
    happened. *)
Theorem empty_read_skips_tick `{V : cv2.Vision}
    (self : MainWindow.t) (c : cv2.VideoCapture) (grab : option ndarray) :
  VideoProcessor.cap (MainWindow.video_processor self) = Some c ->
  cv2.read c grab = None ->
  VideoProcessor.update_frame (MainWindow.video_processor self) grab
  = Ok (MainWindow.video_processor self, []) /\
  MainWindow.dispatch self (MainWindow.timer_timeout grab) = Ok (self, []) /\
  forall next : option ndarray,
    MainWindow.run self [MainWindow.timer_timeout grab; MainWindow.timer_timeout next]
    = MainWindow.run self [MainWindow.timer_timeout next].
Proof.
  intros Hcap Hread.
  pose proof (closed_handle_tick self c grab Hcap Hread) as Htick.
  split; [|split; [exact Htick|]].
  - unfold VideoProcessor.update_frame. rewrite Hcap, Hread. reflexivity.
  - intros next. cbn [MainWindow.run]. rewrite Htick.
    cbn [rbind fst snd app].
    destruct (MainWindow.dispatch self (MainWindow.timer_timeout next))
      as [[s e]|err]; reflexivity.
Qed.

(** A running camera whose read comes back empty. *)
Lemma empty_read_skips_tick_witness :
  VideoProcessor.update_frame (V := Sample.vision)
    (MainWindow.video_processor Sample.started) None
  = Ok (MainWindow.video_processor Sample.started, []) /\
  MainWindow.dispatch (V := Sample.vision) Sample.started
    (MainWindow.timer_timeout None)
  = Ok (Sample.started, []) /\
  forall next : option ndarray,
    MainWindow.run (V := Sample.vision) Sample.started
      [MainWindow.timer_timeout None; MainWindow.timer_timeout next]
    = MainWindow.run (V := Sample.vision) Sample.started
        [MainWindow.timer_timeout next].
Proof.
  apply (empty_read_skips_tick (V := Sample.vision) Sample.started
           (cv2.open 0 true) None);
    reflexivity.
Defined.

(** ** C7: a device that does not open *)

(** C7, as amended.  When the device fails to open, "Start Camera" raises
    nothing and shows nothing to the operator; the handle is kept closed,
    the timer is started at 30 ms all the same, and every tick that
    follows reads no frame, so nothing is processed, emitted or
    displayed. *)
Theorem open_failure_is_silent `{V : cv2.Vision} (self : MainWindow.t) :
  let self' := MainWindow.start_camera self false in
  MainWindow.dispatch self (MainWindow.start_button_clicked false) = Ok (self', []) /\
  VideoProcessor.cap (MainWindow.video_processor self') = Some (cv2.open 0 false) /\
  VideoProcessor.timer (MainWindow.video_processor self')
  = {| QTimer.isActive := true; QTimer.interval := 30 |} /\
  MainWindow.label_pixmap self' = MainWindow.label_pixmap self /\
  (forall grab : option ndarray,
      VideoProcessor.update_frame (MainWindow.video_processor self') grab
      = Ok (MainWindow.video_processor self', [])) /\
  (forall grabs : list (option ndarray),
      MainWindow.run self' (ticks grabs) = Ok (self', [])).
Proof.
  intros self'. repeat split.
  apply run_idle_ticks. intros grab.
  apply (closed_handle_tick self' (cv2.open 0 false) grab); reflexivity.
Qed.

(** C7, as written, fails on the first click of a fresh window: the timer
    runs and the operator is shown nothing. *)
Lemma open_failure_not_surfaced :
  MainWindow.dispatch (V := Sample.vision) MainWindow.__init__
    (MainWindow.start_button_clicked false)
  = Ok (MainWindow.start_camera MainWindow.__init__ false, []) /\
  QTimer.isActive
    (VideoProcessor.timer
       (MainWindow.video_processor (MainWindow.start_camera MainWindow.__init__ false)))
  = true /\
  ~ open_failure_surfaced (V := Sample.vision) MainWindow.__init__.
Proof.
  split; [reflexivity|]. split; [reflexivity|].
  intros (s & effects & Hdisp & Hshown & Htimer).
  cbn [MainWindow.dispatch] in Hdisp. injection Hdisp as <- <-.
  apply Hshown. reflexivity.
Qed.

(** ** C8: saving with nothing displayed *)

(** Only a tick that carries a frame can put a pixmap on the label. *)
Lemma label_pixmap_needs_frame `{V : cv2.Vision}
    (evs : list MainWindow.Event) (self s : MainWindow.t) (effects : list UiEffect) :
  MainWindow.label_pixmap self = None ->
  forallb (fun ev => negb (carries_frame ev)) evs = true ->
  MainWindow.run self evs = Ok (s, effects) ->
  MainWindow.label_pixmap s = None.
Proof.
  revert self s effects.
  induction evs as [|ev evs IH]; intros self s effects Hnone Hevs Hrun.
  - cbn in Hrun. injection Hrun as <- _. exact Hnone.
  - cbn [forallb] in Hevs. apply andb_prop in Hevs as [Hev Hevs].
    cbn [MainWindow.run] in Hrun.
    destruct (MainWindow.dispatch self ev) as [[s1 e1]|err] eqn:Hdisp;
      [|discriminate Hrun].
    cbn [rbind fst snd] in Hrun.
    destruct (MainWindow.run s1 evs) as [[s2 e2]|err] eqn:Hrest;
      [|discriminate Hrun].
    cbn [rbind fst snd] in Hrun. injection Hrun as <- _.
    apply (IH s1 s2 e2); [|exact Hevs|exact Hrest].
    destruct ev as [available| | | | | |chosen|value|[frame|]];
      try discriminate Hev; cbn [MainWindow.dispatch] in Hdisp.
    1-6, 8: injection Hdisp as <- _; exact Hnone.
    + unfold MainWindow.save_frame in Hdisp. rewrite Hnone in Hdisp.
      injection Hdisp as <- _. exact Hnone.
    + unfold VideoProcessor.update_frame, cv2.read in Hdisp.
      destruct (QTimer.isActive _); [|injection Hdisp as <- _; exact Hnone].
      destruct (VideoProcessor.cap (MainWindow.video_processor self)) as [c|];
        [|discriminate Hdisp].
      replace (if cv2.isOpened c then None else None)
        with (@None ndarray) in Hdisp by (destruct (cv2.isOpened c); reflexivity).
      cbn [rbind fst snd MainWindow.deliver] in Hdisp.
      injection Hdisp as <- _. exact Hnone.
Qed.

(** C8.  With no pixmap on the label, [save_frame] shows the warning
    "No frame to save.", opens no dialog and saves no file, and returns
    the window (capture handle, timer and flags included) unchanged.  The
    label has no pixmap in a fresh window and after any run in which no
    tick carried a frame. *)
Theorem save_without_frame `{V : cv2.Vision} (self : MainWindow.t) (chosen : string) :
  MainWindow.label_pixmap self = None ->
  MainWindow.save_frame self chosen
  = (self, [MessageBox_warning "Error" "No frame to save."]) /\
  existsb is_save (snd (MainWindow.save_frame self chosen)) = false /\
  MainWindow.dispatch self (MainWindow.save_frame_button_clicked chosen)
  = Ok (self, [MessageBox_warning "Error" "No frame to save."]) /\
  (forall (evs : list MainWindow.Event) (s : MainWindow.t) (effects : list UiEffect),
      forallb (fun ev => negb (carries_frame ev)) evs = true ->
      MainWindow.run self evs = Ok (s, effects) ->
      MainWindow.save_frame s chosen
      = (s, [MessageBox_warning "Error" "No frame to save."])).
Proof.
  intros Hnone.
  assert (Hsave : forall s : MainWindow.t,
             MainWindow.label_pixmap s = None ->
             MainWindow.save_frame s chosen
             = (s, [MessageBox_warning "Error" "No frame to save."])).
  { intros s Hs. unfold MainWindow.save_frame. rewrite Hs. reflexivity. }
  split; [apply Hsave; exact Hnone|].
  split; [rewrite (Hsave self Hnone); reflexivity|].
  split; [cbn [MainWindow.dispatch]; rewrite (Hsave self Hnone); reflexivity|].
  intros evs s effects Hevs Hrun. apply Hsave.
  apply (label_pixmap_needs_frame evs self s effects Hnone Hevs Hrun).
Qed.

(** A fresh window, camera started, one empty tick, then "Save Frame". *)
Lemma save_without_frame_witness :
  MainWindow.save_frame Sample.started "shot.png"
  = (Sample.started, [MessageBox_warning "Error" "No frame to save."]).
Proof.
  apply (proj2 (proj2 (proj2
           (save_without_frame (V := Sample.vision) MainWindow.__init__ "shot.png"
              eq_refl)))
           [MainWindow.start_button_clicked true; MainWindow.timer_timeout None]
           Sample.started []);
    reflexivity.
Defined.

(** ** C10: restarting the camera *)

(** C10.  [start_camera] switches [processing_enabled] off and keeps the
    four mode flags (and the threshold) as they were.  On the restarted
    camera a delivered frame is therefore emitted as captured, whatever
    the flags say, while [update_label] still picks its conversion from
    the [edge_detection_enabled] flag the window had before the restart. *)
Theorem start_camera_keeps_flags `{V : cv2.Vision}
    (self : MainWindow.t) (available : bool) :
  let self' := MainWindow.start_camera self available in
  let vp := MainWindow.video_processor self in
  let vp' := MainWindow.video_processor self' in
  VideoProcessor.processing_enabled vp' = false /\
  (forall m : Mode, flag m vp' = flag m vp) /\
  VideoProcessor.threshold vp' = VideoProcessor.threshold vp /\
  (forall frame : ndarray,
      VideoProcessor.update_frame
        (MainWindow.video_processor (MainWindow.start_camera self true)) (Some frame)
      = Ok (MainWindow.video_processor (MainWindow.start_camera self true), [frame])) /\
  (forall frame : ndarray,
      MainWindow.update_label self' frame
      = (converted <-- cv2.cvtColor frame
                         (if VideoProcessor.edge_detection_enabled vp
                          then cv2.COLOR_GRAY2BGR else cv2.COLOR_BGR2RGB) ;;
         Ok {| MainWindow.video_processor := vp';
               MainWindow.label_pixmap := Some converted |})).
Proof.
  intros self' vp vp'.
  split; [reflexivity|]. split; [intros m; destruct m; reflexivity|].
  split; [reflexivity|]. split; [reflexivity|].
  intros frame. unfold MainWindow.update_label.
  change (VideoProcessor.edge_detection_enabled (MainWindow.video_processor self'))
    with (VideoProcessor.edge_detection_enabled vp).
  destruct (VideoProcessor.edge_detection_enabled vp); reflexivity.
Qed.

(** What the stale flag does to the display: with edge detection chosen
    before a restart, the first colour frame of the restarted camera is
    handed unprocessed to the grey-to-colour conversion, which rejects a
    three-channel image. *)
Lemma stale_edge_flag_rejects_colour_frame `{V : cv2.Vision}
    (self : MainWindow.t) (rows : list (list BGR)) :
  MainWindow.run self
    [MainWindow.edge_detection_button_clicked;
     MainWindow.start_button_clicked true;
     MainWindow.timer_timeout (Some (Mat3 rows))]
  = Raise cv2_error.
Proof. reflexivity. Qed.

(** * Further properties of the code *)

(** ** What a tick and a displayed frame can change *)

Lemma update_label_ok `{V : cv2.Vision}
    (self s : MainWindow.t) (frame : ndarray) :
  MainWindow.update_label self frame = Ok s ->
  MainWindow.video_processor s = MainWindow.video_processor self /\
  exists rows : list (list BGR),
    MainWindow.label_pixmap s = Some (Mat3 rows) /\ cv2.empty rows = false.
Proof.
  unfold MainWindow.update_label, cv2.cvtColor.
  destruct (VideoProcessor.edge_detection_enabled _), frame as [rows|rows];
    try discriminate;
    destruct (cv2.empty rows) eqn:Hempty; try discriminate;
    cbn [rbind]; intros [= <-]; (split; [reflexivity|]);
    eexists; (split; [reflexivity|]);
    rewrite empty_map_pixels; exact Hempty.
Qed.

(** A tick that returns either changed nothing or ran [update_label] once. *)
Lemma tick_outcome `{V : cv2.Vision}
    (self s : MainWindow.t) (grab : option ndarray) (effects : list UiEffect) :
  MainWindow.dispatch self (MainWindow.timer_timeout grab) = Ok (s, effects) ->
  effects = [] /\
  (s = self \/ exists frame : ndarray, MainWindow.update_label self frame = Ok s).
Proof.
  cbn [MainWindow.dispatch].
  destruct (QTimer.isActive _); [|intros [= <- <-]; auto].
  unfold VideoProcessor.update_frame.
  destruct (VideoProcessor.cap _) as [c|]; [|discriminate].
  destruct (cv2.read c grab) as [frame|].
  - destruct (if VideoProcessor.processing_enabled _ then _ else _)
      as [frame'|err]; [|discriminate].
    cbn [rbind fst snd MainWindow.deliver].
    rewrite with_own_video_processor.
    destruct (MainWindow.update_label self frame') as [s'|err] eqn:Hlabel;
      [|discriminate].
    cbn [rbind]. intros [= <- <-]. split; [reflexivity|].
    right. exists frame'. exact Hlabel.
  - cbn [rbind fst snd MainWindow.deliver].
    rewrite with_own_video_processor. intros [= <- <-]. auto.
Qed.

Lemma tick_keeps_processor `{V : cv2.Vision}
    (self s : MainWindow.t) (grab : option ndarray) (effects : list UiEffect) :
  MainWindow.dispatch self (MainWindow.timer_timeout grab) = Ok (s, effects) ->
  MainWindow.video_processor s = MainWindow.video_processor self.
Proof.
  intros Hdisp.
  destruct (tick_outcome self s grab effects Hdisp) as [_ [->|[frame Hlabel]]];
    [reflexivity|].
  apply (update_label_ok self s frame Hlabel).
Qed.

(** A tick shows nothing to the operator besides the label, and leaves the
    processor (handle, timer, flags, threshold) as it was: either the whole
    window is unchanged, or the label got a non-empty colour image. *)
Theorem tick_changes_only_the_label `{V : cv2.Vision}
    (self s : MainWindow.t) (grab : option ndarray) (effects : list UiEffect) :
  MainWindow.dispatch self (MainWindow.timer_timeout grab) = Ok (s, effects) ->
  effects = [] /\
  MainWindow.video_processor s = MainWindow.video_processor self /\
  (s = self \/
   exists rows : list (list BGR),
     MainWindow.label_pixmap s = Some (Mat3 rows) /\ cv2.empty rows = false).
Proof.
  intros Hdisp.
  destruct (tick_outcome self s grab effects Hdisp) as [Heff Hcases].
  split; [exact Heff|].
  split; [apply (tick_keeps_processor self s grab effects Hdisp)|].
  destruct Hcases as [->|[frame Hlabel]]; [left; reflexivity|].
  right. apply (update_label_ok self s frame Hlabel).
Qed.

Lemma tick_changes_only_the_label_witness :
  [] = @nil UiEffect /\
  MainWindow.video_processor (showing Sample.started (Mat3 [[(3, 2, 1)]]))
  = MainWindow.video_processor Sample.started /\
  (showing Sample.started (Mat3 [[(3, 2, 1)]]) = Sample.started \/
   exists rows : list (list BGR),
     MainWindow.label_pixmap (showing Sample.started (Mat3 [[(3, 2, 1)]]))
     = Some (Mat3 rows) /\ cv2.empty rows = false).
Proof.
  apply (tick_changes_only_the_label (V := Sample.vision) Sample.started
           (showing Sample.started (Mat3 [[(3, 2, 1)]]))
           (Some (Mat3 [[(1, 2, 3)]])) []).
  reflexivity.
Defined.

(** An invariant of the window that every event of kind [Q] keeps holds
    after a run of such events. *)
Lemma run_invariant_on `{V : cv2.Vision}
    (Q : MainWindow.Event -> bool) (P : MainWindow.t -> Prop) :
  (forall (s s' : MainWindow.t) (ev : MainWindow.Event) (e : list UiEffect),
      Q ev = true -> P s -> MainWindow.dispatch s ev = Ok (s', e) -> P s') ->
  forall (evs : list MainWindow.Event) (self s : MainWindow.t) (effects : list UiEffect),
    forallb Q evs = true ->
    P self -> MainWindow.run self evs = Ok (s, effects) -> P s.
Proof.
  intros Hstep evs.
  induction evs as [|ev evs IH]; intros self s effects HQ HP Hrun.
  - cbn in Hrun. injection Hrun as <- _. exact HP.
  - cbn [forallb] in HQ. apply andb_prop in HQ as [Hev HQ].
    cbn [MainWindow.run] in Hrun.
    destruct (MainWindow.dispatch self ev) as [[s1 e1]|err] eqn:Hdisp;
      [|discriminate Hrun].
    cbn [rbind fst snd] in Hrun.
    destruct (MainWindow.run s1 evs) as [[s2 e2]|err] eqn:Hrest;
      [|discriminate Hrun].
    cbn [rbind fst snd] in Hrun. injection Hrun as <- _.
    apply (IH s1 s2 e2 HQ); [|exact Hrest].
    apply (Hstep self s1 ev e1 Hev HP Hdisp).
Qed.

Lemma run_invariant `{V : cv2.Vision} (P : MainWindow.t -> Prop) :
  (forall (s s' : MainWindow.t) (ev : MainWindow.Event) (e : list UiEffect),
      P s -> MainWindow.dispatch s ev = Ok (s', e) -> P s') ->
  forall (evs : list MainWindow.Event) (self s : MainWindow.t) (effects : list UiEffect),
    P self -> MainWindow.run self evs = Ok (s, effects) -> P s.
Proof.
  intros Hstep evs self s effects.
  apply (run_invariant_on (fun _ => true) P).
  - intros s0 s' ev e _. apply Hstep.
  - clear. induction evs as [|ev evs IH]; [reflexivity | exact IH].
Qed.

(** The processor after an event that is not a tick, read off the slots. *)
Lemma dispatch_processor `{V : cv2.Vision}
    (self s : MainWindow.t) (ev : MainWindow.Event) (e : list UiEffect) :
  MainWindow.dispatch self ev = Ok (s, e) ->
  MainWindow.video_processor s
  = match ev with
    | MainWindow.start_button_clicked available =>
        VideoProcessor.start_camera (MainWindow.video_processor self) 0 available
    | MainWindow.stop_button_clicked =>
        VideoProcessor.stop_camera (MainWindow.video_processor self)
    | MainWindow.edge_detection_button_clicked =>
        MainWindow.video_processor (MainWindow.enable_edge_detection self)
    | MainWindow.gray_threshold_button_clicked =>
        MainWindow.video_processor (MainWindow.enable_gray_threshold self)
    | MainWindow.face_detection_button_clicked =>
        MainWindow.video_processor (MainWindow.enable_face_detection self)
    | MainWindow.eye_detection_button_clicked =>
        MainWindow.video_processor (MainWindow.enable_eye_detection self)
    | MainWindow.threshold_slider_valueChanged value =>
        MainWindow.video_processor (MainWindow.set_threshold self value)
    | MainWindow.save_frame_button_clicked _
    | MainWindow.timer_timeout _ => MainWindow.video_processor self
    end.
Proof.
  destruct ev as [available| | | | | |chosen|value|grab]; intros Hdisp;
    try (cbn [MainWindow.dispatch] in Hdisp; injection Hdisp as <- _; reflexivity).
  - cbn [MainWindow.dispatch] in Hdisp. unfold MainWindow.save_frame in Hdisp.
    destruct (MainWindow.label_pixmap self);
      [destruct (String.eqb chosen "")|]; injection Hdisp as <- _; reflexivity.
  - apply (tick_keeps_processor self s grab e Hdisp).
Qed.

Lemma save_frame_state (self : MainWindow.t) (chosen : string) :
  fst (MainWindow.save_frame self chosen) = self.
Proof.
  unfold MainWindow.save_frame.
  destruct (MainWindow.label_pixmap self);
    [destruct (String.eqb chosen "")|]; reflexivity.
Qed.

(** The label after an event: as before, or a non-empty colour image. *)
Lemma dispatch_label `{V : cv2.Vision}
    (self s : MainWindow.t) (ev : MainWindow.Event) (e : list UiEffect) :
  MainWindow.dispatch self ev = Ok (s, e) ->
  MainWindow.label_pixmap s = MainWindow.label_pixmap self \/
  exists rows : list (list BGR),
    MainWindow.label_pixmap s = Some (Mat3 rows) /\ cv2.empty rows = false.
Proof.
  destruct ev as [available| | | | | |chosen|value|grab]; intros Hdisp;
    try (cbn [MainWindow.dispatch] in Hdisp; injection Hdisp as <- _;
         left; reflexivity).
  - cbn [MainWindow.dispatch] in Hdisp.
    rewrite (surjective_pairing (MainWindow.save_frame self chosen)) in Hdisp.
    rewrite save_frame_state in Hdisp. injection Hdisp as <- _.
    left; reflexivity.
  - destruct (tick_outcome self s grab e Hdisp) as [_ [->|[frame Hlabel]]];
      [left; reflexivity|].
    right. apply (update_label_ok self s frame Hlabel).
Qed.

(** ** Invariants of the running window *)

(** In every state the window reaches from its construction, at most one
    mode flag is set, and when processing is enabled exactly one is: it is
    the filter [process_frame] runs. *)
Theorem reachable_flags_exclusive `{V : cv2.Vision}
    (evs : list MainWindow.Event) (s : MainWindow.t) (effects : list UiEffect) :
  MainWindow.run MainWindow.__init__ evs = Ok (s, effects) ->
  let vp := MainWindow.video_processor s in
  (forall m m' : Mode, flag m vp = true -> flag m' vp = true -> m = m') /\
  (VideoProcessor.processing_enabled vp = true ->
   exists m : Mode, flag m vp = true /\ selected vp = Some m).
Proof.
  intros Hrun.
  apply (run_invariant
           (fun s =>
              let vp := MainWindow.video_processor s in
              (forall m m' : Mode, flag m vp = true -> flag m' vp = true -> m = m') /\
              (VideoProcessor.processing_enabled vp = true ->
               exists m : Mode, flag m vp = true /\ selected vp = Some m))
           ) with (evs := evs) (self := MainWindow.__init__) (effects := effects);
    [| |exact Hrun].
  - clear. intros s s' ev e [Hone Hsel] Hdisp.
    apply dispatch_processor in Hdisp. cbn zeta. rewrite Hdisp.
    destruct ev as [available| | | | | |chosen|value|grab].
    + split; [exact Hone | discriminate].
    + split; [exact Hone | exact Hsel].
    + split; [intros [] []; simpl; congruence|].
      intros _. exists EdgeDetection. split; reflexivity.
    + split; [intros [] []; simpl; congruence|].
      intros _. exists GrayThreshold. split; reflexivity.
    + split; [intros [] []; simpl; congruence|].
      intros _. exists FaceDetection. split; reflexivity.
    + split; [intros [] []; simpl; congruence|].
      intros _. exists EyeDetection. split; reflexivity.
    + split; [exact Hone | exact Hsel].
    + split; [exact Hone | exact Hsel].
    + split; [exact Hone | exact Hsel].
  - split; [intros [] []; simpl; congruence | discriminate].
Qed.

Lemma reachable_flags_exclusive_witness :
  let vp := MainWindow.video_processor
              (MainWindow.enable_eye_detection
                 (MainWindow.enable_edge_detection Sample.started)) in
  (forall m m' : Mode, flag m vp = true -> flag m' vp = true -> m = m') /\
  (VideoProcessor.processing_enabled vp = true ->
   exists m : Mode, flag m vp = true /\ selected vp = Some m).
Proof.
  apply (reachable_flags_exclusive (V := Sample.vision)
           [MainWindow.start_button_clicked true;
            MainWindow.edge_detection_button_clicked;
            MainWindow.eye_detection_button_clicked]
           (MainWindow.enable_eye_detection
              (MainWindow.enable_edge_detection Sample.started)) []).
  reflexivity.
Defined.

(** In every state the window reaches from its construction, the timer
    runs only when a capture handle exists, and an open handle always has a
    running timer; so a tick at which the device delivers nothing never
    raises and changes nothing. *)
Theorem reachable_timer_has_handle `{V : cv2.Vision}
    (evs : list MainWindow.Event) (s : MainWindow.t) (effects : list UiEffect) :
  MainWindow.run MainWindow.__init__ evs = Ok (s, effects) ->
  let vp := MainWindow.video_processor s in
  (QTimer.isActive (VideoProcessor.timer vp) = true ->
   exists c : cv2.VideoCapture, VideoProcessor.cap vp = Some c) /\
  (forall c : cv2.VideoCapture,
      VideoProcessor.cap vp = Some c -> cv2.isOpened c = true ->
      QTimer.isActive (VideoProcessor.timer vp) = true) /\
  MainWindow.dispatch s (MainWindow.timer_timeout None) = Ok (s, []).
Proof.
  intros Hrun vp.
  assert (Hinv :
            (QTimer.isActive (VideoProcessor.timer vp) = true ->
             exists c : cv2.VideoCapture, VideoProcessor.cap vp = Some c) /\
            (forall c : cv2.VideoCapture,
                VideoProcessor.cap vp = Some c -> cv2.isOpened c = true ->
                QTimer.isActive (VideoProcessor.timer vp) = true)).
  { subst vp.
    apply (run_invariant
             (fun s =>
                let vp := MainWindow.video_processor s in
                (QTimer.isActive (VideoProcessor.timer vp) = true ->
                 exists c : cv2.VideoCapture, VideoProcessor.cap vp = Some c) /\
                (forall c : cv2.VideoCapture,
                    VideoProcessor.cap vp = Some c -> cv2.isOpened c = true ->
                    QTimer.isActive (VideoProcessor.timer vp) = true)))
      with (evs := evs) (self := MainWindow.__init__) (effects := effects);
      [| |exact Hrun].
    - clear. intros s s' ev e [Hact Hopen] Hdisp.
      apply dispatch_processor in Hdisp. cbn zeta. rewrite Hdisp.
      destruct ev as [available| | | | | |chosen|value|grab];
        try (split; [exact Hact | exact Hopen]).
      + split; [intros _; eexists; reflexivity | reflexivity].
      + split; [discriminate|]. simpl. intros c Hc Hopened.
        destruct (VideoProcessor.cap (MainWindow.video_processor s));
          [injection Hc as <-; discriminate Hopened | discriminate Hc].
    - split; [discriminate | intros c Hc; discriminate Hc]. }
  split; [apply Hinv|]. split; [apply Hinv|].
  cbn [MainWindow.dispatch].
  destruct (QTimer.isActive (VideoProcessor.timer (MainWindow.video_processor s)))
    eqn:Hactive; [|reflexivity].
  destruct (proj1 Hinv Hactive) as [c Hc].
  unfold VideoProcessor.update_frame. fold vp. rewrite Hc.
  replace (cv2.read c None) with (@None ndarray)
    by (unfold cv2.read; destruct (cv2.isOpened c); reflexivity).
  cbn [rbind fst snd MainWindow.deliver].
  rewrite with_own_video_processor. reflexivity.
Qed.

Lemma reachable_timer_has_handle_witness :
  MainWindow.dispatch (V := Sample.vision)
    (MainWindow.stop_camera Sample.started) (MainWindow.timer_timeout None)
  = Ok (MainWindow.stop_camera Sample.started, []).
Proof.
  apply (reachable_timer_has_handle (V := Sample.vision)
           [MainWindow.start_button_clicked true; MainWindow.stop_button_clicked]
           (MainWindow.stop_camera Sample.started) []).
  reflexivity.
Defined.

(** Whatever the window has done since its construction, the pixmap on
    its label, if any, is a non-empty three-channel image: the shape
    [QImage.Format_RGB888] is given. *)
Theorem reachable_label_is_colour `{V : cv2.Vision}
    (evs : list MainWindow.Event) (s : MainWindow.t) (effects : list UiEffect)
    (pixmap : ndarray) :
  MainWindow.run MainWindow.__init__ evs = Ok (s, effects) ->
  MainWindow.label_pixmap s = Some pixmap ->
  is_colour pixmap = true /\ frame_empty pixmap = false.
Proof.
  intros Hrun. revert pixmap.
  apply (run_invariant
           (fun s =>
              forall pixmap : ndarray,
                MainWindow.label_pixmap s = Some pixmap ->
                is_colour pixmap = true /\ frame_empty pixmap = false))
    with (evs := evs) (self := MainWindow.__init__) (effects := effects);
    [| |exact Hrun].
  - clear. intros s s' ev e HP Hdisp pixmap Hlabel.
    destruct (dispatch_label s s' ev e Hdisp) as [Hsame|(rows & Hrows & Hne)].
    + apply HP. rewrite <- Hsame. exact Hlabel.
    + rewrite Hrows in Hlabel. injection Hlabel as <-. auto.
  - intros pixmap Hlabel. discriminate Hlabel.
Qed.

Lemma reachable_label_is_colour_witness :
  is_colour (Mat3 [[(3, 2, 1)]]) = true /\ frame_empty (Mat3 [[(3, 2, 1)]]) = false.
Proof.
  apply (reachable_label_is_colour (V := Sample.vision)
           [MainWindow.start_button_clicked true;
            MainWindow.timer_timeout (Some (Mat3 [[(1, 2, 3)]]))]
           (showing Sample.started (Mat3 [[(3, 2, 1)]])) []
           (Mat3 [[(3, 2, 1)]]));
    reflexivity.
Defined.

(** As long as the slider reports values of its range 0..255, the
    threshold of the processor stays in 0..255, starting from 127. *)
Theorem reachable_threshold_in_range `{V : cv2.Vision}
    (evs : list MainWindow.Event) (s : MainWindow.t) (effects : list UiEffect) :
  forallb slider_in_range evs = true ->
  MainWindow.run MainWindow.__init__ evs = Ok (s, effects) ->
  0 <= VideoProcessor.threshold (MainWindow.video_processor s) <= 255.
Proof.
  intros Hevs Hrun.
  apply (run_invariant_on slider_in_range
           (fun s => 0 <= VideoProcessor.threshold (MainWindow.video_processor s) <= 255))
    with (evs := evs) (self := MainWindow.__init__) (effects := effects);
    [|exact Hevs| |exact Hrun].
  - clear. intros s s' ev e Hev HP Hdisp.
    apply dispatch_processor in Hdisp. rewrite Hdisp.
    destruct ev as [available| | | | | |chosen|value|grab]; try exact HP.
    simpl in Hev. apply andb_prop in Hev as [Hlo Hhi]. simpl. lia.
  - simpl. lia.
Qed.

Lemma reachable_threshold_in_range_witness :
  0 <= VideoProcessor.threshold
         (MainWindow.video_processor (MainWindow.set_threshold MainWindow.__init__ 200))
    <= 255.
Proof.
  apply (reachable_threshold_in_range (V := Sample.vision)
           [MainWindow.threshold_slider_valueChanged 200]
           (MainWindow.set_threshold MainWindow.__init__ 200) []);
    reflexivity.
Defined.

(** ** What the operator is shown *)

(** Only "Save Frame" opens a dialog or a message box: a run without a
    click on it shows the operator nothing besides the label, whatever the
    camera, the modes and the ticks do. *)
Theorem only_save_shows_dialogs `{V : cv2.Vision}
    (evs : list MainWindow.Event) (self s : MainWindow.t) (effects : list UiEffect) :
  forallb (fun ev => negb (is_save_click ev)) evs = true ->
  MainWindow.run self evs = Ok (s, effects) ->
  effects = [].
Proof.
  revert self s effects.
  induction evs as [|ev evs IH]; intros self s effects Hevs Hrun.
  - cbn in Hrun. injection Hrun as _ <-. reflexivity.
  - cbn [forallb] in Hevs. apply andb_prop in Hevs as [Hev Hevs].
    cbn [MainWindow.run] in Hrun.
    destruct (MainWindow.dispatch self ev) as [[s1 e1]|err] eqn:Hdisp;
      [|discriminate Hrun].
    cbn [rbind fst snd] in Hrun.
    destruct (MainWindow.run s1 evs) as [[s2 e2]|err] eqn:Hrest;
      [|discriminate Hrun].
    cbn [rbind fst snd] in Hrun. injection Hrun as _ <-.
    rewrite (IH s1 s2 e2 Hevs Hrest), app_nil_r.
    destruct ev as [available| | | | | |chosen|value|grab];
      try discriminate Hev;
      try (cbn [MainWindow.dispatch] in Hdisp; injection Hdisp as _ <-; reflexivity).
    apply (tick_outcome self s1 grab e1 Hdisp).
Qed.

Lemma only_save_shows_dialogs_witness :
  @nil UiEffect = [].
Proof.
  apply (only_save_shows_dialogs (V := Sample.vision)
           [MainWindow.start_button_clicked false;
            MainWindow.gray_threshold_button_clicked;
            MainWindow.timer_timeout (Some Sample.grey_frame)]
           MainWindow.__init__
           (MainWindow.enable_gray_threshold
              (MainWindow.start_camera MainWindow.__init__ false)) []);
    reflexivity.
Defined.

(** ** The display step *)

(** [update_label] raises exactly when the frame is empty, or is a colour
    frame while the edge flag is set (the grey-to-colour conversion
    rejects three channels).  In every other case it puts a three-channel
    image on the label and touches nothing else: a colour frame with its
    channels reversed, a single-channel frame with each value repeated on
    the three channels, whatever the edge flag. *)
Theorem update_label_raises_iff `{V : cv2.Vision}
    (self : MainWindow.t) (frame : ndarray) :
  let edge := VideoProcessor.edge_detection_enabled (MainWindow.video_processor self) in
  (MainWindow.update_label self frame = Raise cv2_error <->
   frame_empty frame = true \/ (edge = true /\ is_colour frame = true)) /\
  (frame_empty frame = false -> edge = false \/ is_colour frame = false ->
   exists img : list (list BGR),
     MainWindow.update_label self frame = Ok (showing self (Mat3 img)) /\
     forall i j : nat,
       pixel_at img i j
       = if is_colour frame
         then to_rgb <$> frame_pixel frame i j
         else frame_pixel frame i j).
Proof.
  intros edge. subst edge. unfold MainWindow.update_label, cv2.cvtColor, showing.
  destruct (VideoProcessor.edge_detection_enabled (MainWindow.video_processor self)),
    frame as [rows|rows]; cbn [frame_empty is_colour frame_pixel];
    destruct (cv2.empty rows) eqn:Hempty; cbn [rbind].
  - split; [split; [auto | reflexivity]|]. intros Hne. discriminate Hne.
  - split; [split; [auto | reflexivity]|].
    intros _ [H|H]; discriminate H.
  - split; [split; [auto | reflexivity]|]. intros Hne. discriminate Hne.
  - split.
    + split; [intros H; discriminate H|].
      intros [H|[_ H]]; discriminate H.
    + intros _ _. eexists. split; [reflexivity|].
      intros i j. apply pixel_at_map_pixels.
  - split; [split; [auto | reflexivity]|]. intros Hne. discriminate Hne.
  - split.
    + split; [intros H; discriminate H|].
      intros [H|[H _]]; discriminate H.
    + intros _ _. eexists. split; [reflexivity|].
      intros i j. apply pixel_at_map_pixels.
  - split; [split; [auto | reflexivity]|]. intros Hne. discriminate Hne.
  - split.
    + split; [intros H; discriminate H|].
      intros [H|[H _]]; discriminate H.
    + intros _ _. eexists. split; [reflexivity|].
      intros i j. apply pixel_at_map_pixels.
Qed.

(** A single-channel frame reaching the label while the edge flag is
    clear. *)
Lemma update_label_raises_iff_witness :
  exists img : list (list BGR),
    MainWindow.update_label (V := Sample.vision) Sample.started (Mat1 [[7; 9]])
    = Ok (showing Sample.started (Mat3 img)) /\
    forall i j : nat,
      pixel_at img i j = frame_pixel (Mat1 [[7; 9]]) i j.
Proof.
  apply (proj2 (update_label_raises_iff (V := Sample.vision)
                  Sample.started (Mat1 [[7; 9]])));
    [reflexivity | left; reflexivity].
Defined.

(** ** A tick in a chosen mode *)

(** After the button of mode [m], a tick on an open handle that delivers
    [frame] emits exactly what the filter of [m] makes of it, with the
    threshold the window had; when the filter raises, so does the tick. *)
Theorem tick_runs_chosen_filter `{V : cv2.Vision}
    (self : MainWindow.t) (m : Mode) (c : cv2.VideoCapture) (frame : ndarray) :
  VideoProcessor.cap (MainWindow.video_processor self) = Some c ->
  cv2.isOpened c = true ->
  VideoProcessor.update_frame (MainWindow.video_processor (enable m self)) (Some frame)
  = (out <-- filter m (VideoProcessor.threshold (MainWindow.video_processor self)) frame ;;
     Ok (MainWindow.video_processor (enable m self), [out])).
Proof.
  intros Hcap Hopen.
  unfold VideoProcessor.update_frame.
  replace (VideoProcessor.cap (MainWindow.video_processor (enable m self)))
    with (Some c) by (destruct m; symmetry; exact Hcap).
  unfold cv2.read. rewrite Hopen.
  destruct m; reflexivity.
Qed.

Lemma tick_runs_chosen_filter_witness :
  VideoProcessor.update_frame (V := Sample.vision)
    (MainWindow.video_processor (enable GrayThreshold Sample.started))
    (Some Sample.grey_frame)
  = (out <-- filter (V := Sample.vision) GrayThreshold
               (VideoProcessor.threshold (MainWindow.video_processor Sample.started))
               Sample.grey_frame ;;
     Ok (MainWindow.video_processor (enable GrayThreshold Sample.started), [out])).
Proof.
  apply (tick_runs_chosen_filter (V := Sample.vision) Sample.started GrayThreshold
           (cv2.open 0 true) Sample.grey_frame);
    reflexivity.
Defined.

(** The slider matters to the grey threshold only: [set_threshold] keeps
    the chosen mode, and unless that mode is the grey threshold
    [process_frame] gives the same result for every value of the slider. *)
Theorem threshold_matters_to_gray_only `{V : cv2.Vision}
    (self : MainWindow.t) (value : Z) (frame : ndarray) :
  selected (MainWindow.video_processor (MainWindow.set_threshold self value))
  = selected (MainWindow.video_processor self) /\
  (selected (MainWindow.video_processor self) <> Some GrayThreshold ->
   VideoProcessor.process_frame
     (MainWindow.video_processor (MainWindow.set_threshold self value)) frame
   = VideoProcessor.process_frame (MainWindow.video_processor self) frame).
Proof.
  rewrite !selected_cases. unfold VideoProcessor.process_frame. simpl.
  split; [reflexivity|].
  destruct (VideoProcessor.edge_detection_enabled _); [reflexivity|].
  destruct (VideoProcessor.gray_threshold_enabled _); [intros H; contradiction|].
  reflexivity.
Qed.

Lemma threshold_matters_to_gray_only_witness :
  VideoProcessor.process_frame (V := Sample.vision)
    (MainWindow.video_processor
       (MainWindow.set_threshold (enable FaceDetection Sample.started) 9))
    Sample.grey_frame
  = VideoProcessor.process_frame (V := Sample.vision)
      (MainWindow.video_processor (enable FaceDetection Sample.started))
      Sample.grey_frame.
Proof.
  apply (proj2 (threshold_matters_to_gray_only (V := Sample.vision)
                  (enable FaceDetection Sample.started) 9 Sample.grey_frame)).
  discriminate.
Defined.

(** ** More on the grey threshold *)

(** Raising the threshold within the slider's range 0..255 can only
    darken: on the same frame, a pixel that is white at the higher
    threshold is white at the lower one too. *)
Theorem gray_threshold_monotone `{V : cv2.Vision}
    (self : MainWindow.t) (T1 T2 : Z) (rows : list (list BGR)) :
  VideoProcessor.edge_detection_enabled (MainWindow.video_processor self) = false ->
  VideoProcessor.gray_threshold_enabled (MainWindow.video_processor self) = true ->
  cv2.empty rows = false ->
  0 <= T1 -> T1 <= T2 -> T2 <= 255 ->
  exists out1 out2 : list (list BGR),
    VideoProcessor.process_frame
      (MainWindow.video_processor (MainWindow.set_threshold self T1)) (Mat3 rows)
    = Ok (Mat3 out1) /\
    VideoProcessor.process_frame
      (MainWindow.video_processor (MainWindow.set_threshold self T2)) (Mat3 rows)
    = Ok (Mat3 out2) /\
    forall i j : nat,
      pixel_at out2 i j = Some (255, 255, 255) ->
      pixel_at out1 i j = Some (255, 255, 255).
Proof.
  intros Hedge Hgray Hne Hlo HT Hhi.
  eexists _, _.
  split; [apply process_frame_gray_threshold; assumption|].
  split; [apply process_frame_gray_threshold; assumption|].
  intros i j. rewrite !pixel_at_map_pixels.
  destruct (pixel_at rows i j) as [p|]; [|discriminate].
  cbn [fmap option_fmap option_map MainWindow.set_threshold
         MainWindow.with_video_processor MainWindow.video_processor
         VideoProcessor.threshold].
  rewrite (threshold_binary_slider T1), (threshold_binary_slider T2) by lia.
  destruct (Z.ltb_spec T2 (cv2.luminance p)); [|discriminate].
  destruct (Z.ltb_spec T1 (cv2.luminance p)); [reflexivity | lia].
Qed.

Lemma gray_threshold_monotone_witness :
  exists out1 out2 : list (list BGR),
    VideoProcessor.process_frame (V := Sample.vision)
      (MainWindow.video_processor
         (MainWindow.set_threshold (enable GrayThreshold Sample.started) 50))
      Sample.grey_frame
    = Ok (Mat3 out1) /\
    VideoProcessor.process_frame (V := Sample.vision)
      (MainWindow.video_processor
         (MainWindow.set_threshold (enable GrayThreshold Sample.started) 150))
      Sample.grey_frame
    = Ok (Mat3 out2) /\
    forall i j : nat,
      pixel_at out2 i j = Some (255, 255, 255) ->
      pixel_at out1 i j = Some (255, 255, 255).
Proof.
  apply (gray_threshold_monotone (V := Sample.vision)
           (enable GrayThreshold Sample.started) 50 150
           [[(100, 100, 100); (100, 100, 100)]; [(100, 100, 100); (100, 100, 100)]]);
    [reflexivity | reflexivity | reflexivity | lia | lia | lia].
Defined.

(** The grey threshold yields a two-level image, every pixel (0, 0, 0) or
    (255, 255, 255); and when the library gives black luminance 0 and
    white luminance 255, processing that image again at a threshold in
    0..254 returns it unchanged. *)
Theorem gray_threshold_idempotent `{V : cv2.Vision}
    (self : VideoProcessor.t) (rows : list (list BGR)) :
  VideoProcessor.edge_detection_enabled self = false ->
  VideoProcessor.gray_threshold_enabled self = true ->
  cv2.empty rows = false ->
  exists out : list (list BGR),
    VideoProcessor.process_frame self (Mat3 rows) = Ok (Mat3 out) /\
    (forall (i j : nat) (q : BGR),
        pixel_at out i j = Some q -> q = (0, 0, 0) \/ q = (255, 255, 255)) /\
    (cv2.luminance (0, 0, 0) = 0 -> cv2.luminance (255, 255, 255) = 255 ->
     0 <= VideoProcessor.threshold self < 255 ->
     VideoProcessor.process_frame self (Mat3 out) = Ok (Mat3 out)).
Proof.
  intros Hedge Hgray Hne.
  eexists. split; [apply process_frame_gray_threshold; assumption|].
  split.
  - intros i j q. rewrite pixel_at_map_pixels.
    destruct (pixel_at rows i j) as [p|]; [|discriminate].
    cbn [fmap option_fmap option_map]. intros [= <-].
    unfold cv2.threshold_binary.
    destruct (cv2.cvFloor (VideoProcessor.threshold self) <? cv2.luminance p); auto.
  - intros Hblack Hwhite HT.
    rewrite process_frame_gray_threshold;
      [|assumption|assumption|rewrite empty_map_pixels; exact Hne].
    rewrite map_pixels_compose. do 2 f_equal.
    unfold cv2.map_pixels.
    apply list_fmap_ext. intros _ row _.
    apply list_fmap_ext. intros _ p _.
    cbn [compose]. rewrite !threshold_binary_slider by lia.
    destruct (VideoProcessor.threshold self <? cv2.luminance p).
    + rewrite Hwhite.
      destruct (Z.ltb_spec (VideoProcessor.threshold self) 255);
        [reflexivity | lia].
    + rewrite Hblack.
      destruct (Z.ltb_spec (VideoProcessor.threshold self) 0);
        [lia | reflexivity].
Qed.

Lemma gray_threshold_idempotent_witness :
  let self := MainWindow.video_processor (enable GrayThreshold Sample.started) in
  VideoProcessor.process_frame (V := Sample.vision) self
    (Mat3 [[(0, 0, 0); (0, 0, 0)]; [(0, 0, 0); (0, 0, 0)]])
  = Ok (Mat3 [[(0, 0, 0); (0, 0, 0)]; [(0, 0, 0); (0, 0, 0)]]).
Proof.
  intros self.
  destruct (gray_threshold_idempotent (V := Sample.vision) self
              [[(100, 100, 100); (100, 100, 100)]; [(100, 100, 100); (100, 100, 100)]]
              eq_refl eq_refl eq_refl) as (out & Hout & _ & Hagain).
  injection Hout as <-.
  apply Hagain; [reflexivity | reflexivity | vm_compute; split; [discriminate | reflexivity]].
Defined.

(** ** From a captured frame to the label *)

(** A running tick on an open handle: the frame goes through
    [process_frame] if processing is enabled, then to [update_label]. *)
Lemma running_tick `{V : cv2.Vision}
    (self : MainWindow.t) (c : cv2.VideoCapture) (frame : ndarray) :
  VideoProcessor.cap (MainWindow.video_processor self) = Some c ->
  cv2.isOpened c = true ->
  QTimer.isActive (VideoProcessor.timer (MainWindow.video_processor self)) = true ->
  MainWindow.dispatch self (MainWindow.timer_timeout (Some frame))
  = (out <-- (if VideoProcessor.processing_enabled (MainWindow.video_processor self)
              then VideoProcessor.process_frame (MainWindow.video_processor self) frame
              else Ok frame) ;;
     s <-- MainWindow.update_label self out ;;
     Ok (s, [])).
Proof.
  intros Hcap Hopen Hactive.
  cbn [MainWindow.dispatch]. rewrite Hactive.
  unfold VideoProcessor.update_frame, cv2.read. rewrite Hcap, Hopen.
  destruct (if VideoProcessor.processing_enabled _ then _ else _) as [out|err];
    [|reflexivity].
  cbn [rbind fst snd MainWindow.deliver].
  rewrite with_own_video_processor.
  destruct (MainWindow.update_label self out); reflexivity.
Qed.

(** With processing off and the edge flag clear, a captured colour frame
    reaches the label with its channels reversed, (B, G, R) to (R, G, B),
    pixel by pixel; "Save Frame" with a non-empty file name then opens the
    dialog and calls the pixmap's [save] with that name on exactly that
    image.  (The code drops the result of [save]: whether a file appears
    is not stated.) *)
Theorem raw_frame_is_displayed_as_rgb `{V : cv2.Vision}
    (self : MainWindow.t) (c : cv2.VideoCapture) (rows : list (list BGR))
    (chosen : string) :
  VideoProcessor.cap (MainWindow.video_processor self) = Some c ->
  cv2.isOpened c = true ->
  QTimer.isActive (VideoProcessor.timer (MainWindow.video_processor self)) = true ->
  VideoProcessor.processing_enabled (MainWindow.video_processor self) = false ->
  VideoProcessor.edge_detection_enabled (MainWindow.video_processor self) = false ->
  cv2.empty rows = false ->
  chosen <> "" ->
  exists img : list (list BGR),
    (forall i j : nat, pixel_at img i j = to_rgb <$> pixel_at rows i j) /\
    MainWindow.dispatch self (MainWindow.timer_timeout (Some (Mat3 rows)))
    = Ok (showing self (Mat3 img), []) /\
    MainWindow.run self [MainWindow.timer_timeout (Some (Mat3 rows));
                         MainWindow.save_frame_button_clicked chosen]
    = Ok (showing self (Mat3 img),
          [FileDialog_getSaveFileName "Save Frame"; Pixmap_save chosen (Mat3 img)]).
Proof.
  intros Hcap Hopen Hactive Hproc Hedge Hne Hname.
  exists (cv2.map_pixels to_rgb rows).
  assert (Htick : MainWindow.dispatch self (MainWindow.timer_timeout (Some (Mat3 rows)))
                  = Ok (showing self (Mat3 (cv2.map_pixels to_rgb rows)), [])).
  { rewrite (running_tick self c (Mat3 rows) Hcap Hopen Hactive), Hproc.
    cbn [rbind]. unfold MainWindow.update_label, cv2.cvtColor.
    rewrite Hedge, Hne. reflexivity. }
  split; [intros i j; apply pixel_at_map_pixels|].
  split; [exact Htick|].
  cbn [MainWindow.run]. rewrite Htick.
  cbn [rbind fst snd MainWindow.dispatch MainWindow.run].
  unfold MainWindow.save_frame. cbn [showing MainWindow.label_pixmap].
  destruct (String.eqb_spec chosen ""); [contradiction|reflexivity].
Qed.

Lemma raw_frame_is_displayed_as_rgb_witness :
  exists img : list (list BGR),
    (forall i j : nat, pixel_at img i j = to_rgb <$> pixel_at [[(1, 2, 3)]] i j) /\
    MainWindow.dispatch (V := Sample.vision) Sample.started
      (MainWindow.timer_timeout (Some (Mat3 [[(1, 2, 3)]])))
    = Ok (showing Sample.started (Mat3 img), []) /\
    MainWindow.run (V := Sample.vision) Sample.started
      [MainWindow.timer_timeout (Some (Mat3 [[(1, 2, 3)]]));
       MainWindow.save_frame_button_clicked "shot.png"]
    = Ok (showing Sample.started (Mat3 img),
          [FileDialog_getSaveFileName "Save Frame"; Pixmap_save "shot.png" (Mat3 img)]).
Proof.
  apply (raw_frame_is_displayed_as_rgb (V := Sample.vision) Sample.started
           (cv2.open 0 true) [[(1, 2, 3)]] "shot.png");
    try reflexivity.
  discriminate.
Defined.

(** In grey-threshold mode the label shows exactly what [process_frame]
    returned: the channel swap of the display changes nothing on it. *)
Theorem gray_threshold_is_displayed_as_is `{V : cv2.Vision}
    (self : MainWindow.t) (c : cv2.VideoCapture) (rows : list (list BGR)) :
  VideoProcessor.cap (MainWindow.video_processor self) = Some c ->
  cv2.isOpened c = true ->
  QTimer.isActive (VideoProcessor.timer (MainWindow.video_processor self)) = true ->
  VideoProcessor.processing_enabled (MainWindow.video_processor self) = true ->
  VideoProcessor.edge_detection_enabled (MainWindow.video_processor self) = false ->
  VideoProcessor.gray_threshold_enabled (MainWindow.video_processor self) = true ->
  cv2.empty rows = false ->
  exists out : ndarray,
    VideoProcessor.process_frame (MainWindow.video_processor self) (Mat3 rows) = Ok out /\
    MainWindow.dispatch self (MainWindow.timer_timeout (Some (Mat3 rows)))
    = Ok (showing self out, []).
Proof.
  intros Hcap Hopen Hactive Hproc Hedge Hgray Hne.
  eexists. split; [apply process_frame_gray_threshold; assumption|].
  rewrite (running_tick self c (Mat3 rows) Hcap Hopen Hactive), Hproc.
  rewrite (process_frame_gray_threshold _ rows Hedge Hgray Hne).
  cbn [rbind]. unfold MainWindow.update_label, cv2.cvtColor.
  rewrite Hedge, empty_map_pixels, Hne. cbn [rbind].
  rewrite map_pixels_compose. reflexivity.
Qed.

Lemma gray_threshold_is_displayed_as_is_witness :
  exists out : ndarray,
    VideoProcessor.process_frame (V := Sample.vision)
      (MainWindow.video_processor (enable GrayThreshold Sample.started))
      Sample.grey_frame = Ok out /\
    MainWindow.dispatch (V := Sample.vision) (enable GrayThreshold Sample.started)
      (MainWindow.timer_timeout (Some Sample.grey_frame))
    = Ok (showing (enable GrayThreshold Sample.started) out, []).
Proof.
  apply (gray_threshold_is_displayed_as_is (V := Sample.vision)
           (enable GrayThreshold Sample.started) (cv2.open 0 true)
           [[(100, 100, 100); (100, 100, 100)]; [(100, 100, 100); (100, 100, 100)]]);
    reflexivity.
Defined.

(** In edge mode, when the edge operator returns a non-empty
    single-channel image, the label shows it with the three channels of
    every pixel equal to the edge value. *)
Theorem edge_map_is_displayed_grey `{V : cv2.Vision}
    (self : MainWindow.t) (c : cv2.VideoCapture) (rows : list (list BGR))
    (edges : list (list Z)) :
  VideoProcessor.cap (MainWindow.video_processor self) = Some c ->
  cv2.isOpened c = true ->
  QTimer.isActive (VideoProcessor.timer (MainWindow.video_processor self)) = true ->
  VideoProcessor.processing_enabled (MainWindow.video_processor self) = true ->
  VideoProcessor.edge_detection_enabled (MainWindow.video_processor self) = true ->
  cv2.empty rows = false ->
  cv2.Canny (Mat1 (cv2.map_pixels cv2.luminance rows)) 100 200 = Ok (Mat1 edges) ->
  cv2.empty edges = false ->
  exists img : list (list BGR),
    MainWindow.dispatch self (MainWindow.timer_timeout (Some (Mat3 rows)))
    = Ok (showing self (Mat3 img), []) /\
    forall i j : nat,
      pixel_at img i j = (fun v : Z => (v, v, v)) <$> pixel_at edges i j.
Proof.
  intros Hcap Hopen Hactive Hproc Hedge Hne Hcanny Hedges.
  exists (cv2.map_pixels (fun v : Z => (v, v, v)) edges).
  split; [|intros i j; apply pixel_at_map_pixels].
  rewrite (running_tick self c (Mat3 rows) Hcap Hopen Hactive), Hproc.
  unfold VideoProcessor.process_frame. rewrite Hedge.
  unfold cv2.cvtColor at 1. rewrite Hne. cbn [rbind]. rewrite Hcanny.
  cbn [rbind]. unfold MainWindow.update_label, cv2.cvtColor.
  rewrite Hedge, Hedges. reflexivity.
Qed.

Lemma edge_map_is_displayed_grey_witness :
  exists img : list (list BGR),
    MainWindow.dispatch (V := Sample.vision) (enable EdgeDetection Sample.started)
      (MainWindow.timer_timeout (Some Sample.grey_frame))
    = Ok (showing (enable EdgeDetection Sample.started) (Mat3 img), []) /\
    forall i j : nat,
      pixel_at img i j = (fun v : Z => (v, v, v)) <$> pixel_at [[0; 0]; [0; 0]] i j.
Proof.
  apply (edge_map_is_displayed_grey (V := Sample.vision)
           (enable EdgeDetection Sample.started) (cv2.open 0 true)
           [[(100, 100, 100); (100, 100, 100)]; [(100, 100, 100); (100, 100, 100)]]
           [[0; 0]; [0; 0]]);
    reflexivity.
Defined.

(** ** Saving *)





(** ** Starting and stopping *)

Lemma start_after_start (self : MainWindow.t) (a b : bool) :
  MainWindow.start_camera (MainWindow.start_camera self a) b
  = MainWindow.start_camera self b.
Proof. reflexivity. Qed.

Lemma start_after_stop (self : MainWindow.t) (b : bool) :
  MainWindow.start_camera (MainWindow.stop_camera self) b
  = MainWindow.start_camera self b.
Proof. reflexivity. Qed.

(** "Start Camera" wipes out whatever starts and stops came before it:
    after any run of clicks on "Start Camera" and "Stop Camera", which
    never raises and shows nothing, a further start gives the state a
    start alone would have given; the label is not touched meanwhile. *)
Theorem start_overrides_starts_and_stops `{V : cv2.Vision}
    (evs : list MainWindow.Event) (self : MainWindow.t) (available : bool) :
  forallb is_start_or_stop evs = true ->
  exists s : MainWindow.t,
    MainWindow.run self evs = Ok (s, []) /\
    MainWindow.start_camera s available = MainWindow.start_camera self available /\
    MainWindow.label_pixmap s = MainWindow.label_pixmap self.
Proof.
  revert self.
  induction evs as [|ev evs IH]; intros self Hevs.
  - exists self. auto.
  - cbn [forallb] in Hevs. apply andb_prop in Hevs as [Hev Hevs].
    destruct ev as [a| | | | | |chosen|value|grab]; try discriminate Hev.
    + destruct (IH (MainWindow.start_camera self a) Hevs) as (s & Hrun & Hstart & Hlabel).
      exists s. cbn [MainWindow.run MainWindow.dispatch rbind fst snd].
      rewrite Hrun. cbn [rbind fst snd app].
      rewrite Hstart, start_after_start. auto.
    + destruct (IH (MainWindow.stop_camera self) Hevs) as (s & Hrun & Hstart & Hlabel).
      exists s. cbn [MainWindow.run MainWindow.dispatch rbind fst snd].
      rewrite Hrun. cbn [rbind fst snd app].
      rewrite Hstart, start_after_stop. auto.
Qed.

Lemma start_overrides_starts_and_stops_witness :
  exists s : MainWindow.t,
    MainWindow.run (V := Sample.vision) MainWindow.__init__
      [MainWindow.start_button_clicked false; MainWindow.stop_button_clicked]
    = Ok (s, []) /\
    MainWindow.start_camera s true = MainWindow.start_camera MainWindow.__init__ true /\
    MainWindow.label_pixmap s = MainWindow.label_pixmap MainWindow.__init__.
Proof.
  apply (start_overrides_starts_and_stops (V := Sample.vision)
           [MainWindow.start_button_clicked false; MainWindow.stop_button_clicked]
           MainWindow.__init__ true).
  reflexivity.
Defined.

(** ** Frames the filters reject *)

(** Every filter starts with the grey conversion: with any mode flag set,
    [process_frame] raises [cv2.error] on a frame that is empty or has a
    single channel, and the tick that delivered it raises as well when
    processing is enabled. *)
Theorem process_frame_rejects_bad_frame `{V : cv2.Vision}
    (self : MainWindow.t) (m : Mode) (frame : ndarray) (c : cv2.VideoCapture) :
  selected (MainWindow.video_processor self) = Some m ->
  is_colour frame = false \/ frame_empty frame = true ->
  VideoProcessor.process_frame (MainWindow.video_processor self) frame
  = Raise cv2_error /\
  (VideoProcessor.cap (MainWindow.video_processor self) = Some c ->
   cv2.isOpened c = true ->
   QTimer.isActive (VideoProcessor.timer (MainWindow.video_processor self)) = true ->
   VideoProcessor.processing_enabled (MainWindow.video_processor self) = true ->
   MainWindow.dispatch self (MainWindow.timer_timeout (Some frame)) = Raise cv2_error).
Proof.
  intros Hsel Hbad.
  assert (Hgray : cv2.cvtColor frame cv2.COLOR_BGR2GRAY = Raise cv2_error).
  { unfold cv2.cvtColor. destruct frame as [rows|rows]; [|reflexivity].
    destruct Hbad as [Hbad|Hbad]; [discriminate Hbad|].
    cbn [frame_empty] in Hbad. rewrite Hbad. reflexivity. }
  assert (Hraise : VideoProcessor.process_frame (MainWindow.video_processor self) frame
                   = Raise cv2_error).
  { rewrite selected_cases in Hsel. unfold VideoProcessor.process_frame.
    rewrite Hgray.
    destruct (VideoProcessor.edge_detection_enabled _); [reflexivity|].
    destruct (VideoProcessor.gray_threshold_enabled _); [reflexivity|].
    destruct (VideoProcessor.face_detection_enabled _); [reflexivity|].
    destruct (VideoProcessor.eye_detection_enabled _); [reflexivity|discriminate Hsel]. }
  split; [exact Hraise|].
  intros Hcap Hopen Hactive Hproc.
  rewrite (running_tick self c frame Hcap Hopen Hactive), Hproc, Hraise.
  reflexivity.
Qed.

Lemma process_frame_rejects_bad_frame_witness :
  MainWindow.dispatch (V := Sample.vision) (enable FaceDetection Sample.started)
    (MainWindow.timer_timeout (Some (Mat1 [[7]])))
  = Raise cv2_error.
Proof.
  apply (proj2 (process_frame_rejects_bad_frame (V := Sample.vision)
                  (enable FaceDetection Sample.started) FaceDetection
                  (Mat1 [[7]]) (cv2.open 0 true) eq_refl (or_introl eq_refl)));
    reflexivity.
Defined.

(** ** No way back to "no mode" *)

(** No slot clears the mode flags: once some flag is set, some flag is set
    after every run.  And processing, once enabled, stays enabled until the
    next "Start Camera": no mode button, slider move, save, stop or tick
    switches it off. *)
Theorem mode_is_never_unselected `{V : cv2.Vision}
    (evs : list MainWindow.Event) (self s : MainWindow.t) (effects : list UiEffect) :
  (exists m : Mode, flag m (MainWindow.video_processor self) = true) ->
  MainWindow.run self evs = Ok (s, effects) ->
  (exists m : Mode, flag m (MainWindow.video_processor s) = true) /\
  (forallb (fun ev => negb (is_start ev)) evs = true ->
   VideoProcessor.processing_enabled (MainWindow.video_processor self) = true ->
   VideoProcessor.processing_enabled (MainWindow.video_processor s) = true).
Proof.
  intros Hflag Hrun. split.
  - apply (run_invariant
             (fun s => exists m : Mode, flag m (MainWindow.video_processor s) = true))
      with (evs := evs) (self := self) (effects := effects);
      [|exact Hflag|exact Hrun].
    clear. intros s s' ev e [m Hm] Hdisp.
    apply dispatch_processor in Hdisp. rewrite Hdisp.
    destruct ev as [available| | | | | |chosen|value|grab].
    + exists m. destruct m; exact Hm.
    + exists m. destruct m; exact Hm.
    + exists EdgeDetection. reflexivity.
    + exists GrayThreshold. reflexivity.
    + exists FaceDetection. reflexivity.
    + exists EyeDetection. reflexivity.
    + exists m. exact Hm.
    + exists m. destruct m; exact Hm.
    + exists m. exact Hm.
  - intros Hevs Hproc.
    apply (run_invariant_on (fun ev => negb (is_start ev))
             (fun s => VideoProcessor.processing_enabled (MainWindow.video_processor s)
                       = true))
      with (evs := evs) (self := self) (effects := effects);
      [|exact Hevs|exact Hproc|exact Hrun].
    clear. intros s s' ev e Hev HP Hdisp.
    apply dispatch_processor in Hdisp. rewrite Hdisp.
    destruct ev as [available| | | | | |chosen|value|grab];
      try discriminate Hev; try exact HP; reflexivity.
Qed.

Lemma mode_is_never_unselected_witness :
  VideoProcessor.processing_enabled
    (MainWindow.video_processor
       (MainWindow.stop_camera (enable EdgeDetection Sample.started))) = true.
Proof.
  apply (proj2 (mode_is_never_unselected (V := Sample.vision)
                  [MainWindow.stop_button_clicked]
                  (enable EdgeDetection Sample.started)
                  (MainWindow.stop_camera (enable EdgeDetection Sample.started)) []
                  (ex_intro _ EdgeDetection eq_refl) eq_refl));
    reflexivity.
Defined.

(** ** A stale edge flag *)

(** While the edge flag is set but processing is disabled, which is the
    state "Start Camera" leaves behind when edge detection was chosen
    before it, every tick that captures a colour frame raises [cv2.error]:
    the frame reaches [update_label] unprocessed and the grey-to-colour
    conversion rejects its three channels.  Nothing is displayed until a
    mode button is clicked again. *)
Theorem stale_edge_flag_blocks_display `{V : cv2.Vision}
    (self : MainWindow.t) (c : cv2.VideoCapture) (rows : list (list BGR)) :
  VideoProcessor.cap (MainWindow.video_processor self) = Some c ->
  cv2.isOpened c = true ->
  QTimer.isActive (VideoProcessor.timer (MainWindow.video_processor self)) = true ->
  VideoProcessor.processing_enabled (MainWindow.video_processor self) = false ->
  VideoProcessor.edge_detection_enabled (MainWindow.video_processor self) = true ->
  VideoProcessor.update_frame (MainWindow.video_processor self) (Some (Mat3 rows))
  = Ok (MainWindow.video_processor self, [Mat3 rows]) /\
  MainWindow.update_label self (Mat3 rows) = Raise cv2_error /\
  MainWindow.dispatch self (MainWindow.timer_timeout (Some (Mat3 rows)))
  = Raise cv2_error.
Proof.
  intros Hcap Hopen Hactive Hproc Hedge.
  assert (Hlabel : MainWindow.update_label self (Mat3 rows) = Raise cv2_error).
  { unfold MainWindow.update_label. rewrite Hedge. reflexivity. }
  split.
  - unfold VideoProcessor.update_frame, cv2.read.
    rewrite Hcap, Hopen, Hproc. reflexivity.
  - split; [exact Hlabel|].
    rewrite (running_tick self c (Mat3 rows) Hcap Hopen Hactive), Hproc.
    cbn [rbind]. rewrite Hlabel. reflexivity.
Qed.

(** Edge detection chosen in a fresh window, then the camera started. *)
Lemma stale_edge_flag_blocks_display_witness :
  MainWindow.dispatch (V := Sample.vision)
    (MainWindow.start_camera (MainWindow.enable_edge_detection MainWindow.__init__) true)
    (MainWindow.timer_timeout (Some Sample.grey_frame))
  = Raise cv2_error.
Proof.
  apply (stale_edge_flag_blocks_display (V := Sample.vision)
           (MainWindow.start_camera
              (MainWindow.enable_edge_detection MainWindow.__init__) true)
           (cv2.open 0 true)
           [[(100, 100, 100); (100, 100, 100)]; [(100, 100, 100); (100, 100, 100)]]);
    reflexivity.
Defined.
